(** * vbox-monitor: the snapshot store and the dashboard controller

    A shallow embedding of [VBox/Monitor.cpp] and [VBox/UI.cpp].

    - [SizeT]   : [size_t] arithmetic, as integers modulo [2^64].
    - [VM]      : the value types the monitor stores (declared outside the
                  two source files).
    - [Monitor] : [Monitor::IMPL], its constructors, accessors, [start],
                  [stop] and the bodies of the four polling threads.
    - [Screen]  : the screen driver the controller owns (declared outside
                  the two source files).
    - [UI]      : [UI::IMPL], [run], the redraw and key callbacks and the
                  memory viewport.

    Every lock-protected critical section of the source is one atomic step
    of the model; the values fetched by the polling threads and the
    terminal size are inputs. *)

From Stdlib Require Import ZArith List String Ascii Bool Lia.
Import ListNotations.
Local Open Scope Z_scope.

(* ------------------------------------------------------------------ *)
(** * [size_t] *)

Module SizeT.

Definition modulus : Z := 2 ^ 64.

Definition wrap (z : Z) : Z := z mod modulus.

Definition add (a b : Z) : Z := wrap (a + b).
Definition sub (a b : Z) : Z := wrap (a - b).
Definition mul (a b : Z) : Z := wrap (a * b).

Definition in_range (z : Z) : Prop := 0 <= z < modulus.

End SizeT.

(* ------------------------------------------------------------------ *)
(** * Values stored by the monitor *)

Module VM.

(** Modelled from the spec: [VM::Registers] is declared outside the
    sources; the spec gives it as an ordered mapping from register name
    to an unsigned value, listed by [all()]. *)
Definition Registers : Type := list (string * Z).

Definition all (r : Registers) : list (string * Z) := r.

(** Modelled from the spec: [VM::StackEntry] is declared outside the
    sources; a frame carries a base pointer, a return base pointer, a
    return instruction pointer, four argument words and its own
    instruction pointer. *)
Record StackEntry : Type := mkStackEntry
  { bp : Z; retBP : Z; retIP : Z;
    arg0 : Z; arg1 : Z; arg2 : Z; arg3 : Z;
    ip : Z }.

(** Modelled from the spec: [VM::CoreDump] is declared outside the
    sources; it is a read-only memory image that reports its total size
    and supports ranged byte reads by offset. *)
Record CoreDump : Type := mkCoreDump { image : list Z }.

Definition memorySize (d : CoreDump) : Z :=
  SizeT.wrap (Z.of_nat (List.length (image d))).

Definition readMemory (d : CoreDump) (offset size : Z) : list Z :=
  firstn (Z.to_nat size) (skipn (Z.to_nat offset) (image d)).

End VM.

(* ------------------------------------------------------------------ *)
(** * The snapshot store, [Monitor.cpp] *)

Module Monitor.

(** A [std::thread] handle, named by the member function it runs. *)
Inductive Task : Type :=
| UpdateRegisters
| UpdateStack
| UpdateMemory
| UpdateLiveStatus.

Definition Task_eqb (a b : Task) : bool :=
  match a, b with
  | UpdateRegisters, UpdateRegisters
  | UpdateStack, UpdateStack
  | UpdateMemory, UpdateMemory
  | UpdateLiveStatus, UpdateLiveStatus => true
  | _, _ => false
  end.

(** [Monitor::IMPL]; the recursive mutex has no field of its own, each
    function below is what runs while it is held. A [shared_ptr] to a
    dump is an [option], [nullptr] being [None]. *)
Record IMPL : Type := mkIMPL
  { _vmName    : string;
    _registers : option VM.Registers;
    _stack     : list VM.StackEntry;
    _dump      : option VM.CoreDump;
    _running   : bool;
    _stop      : bool;
    _live      : bool;
    _threads   : list Task }.

Definition set_registers (v : option VM.Registers) (m : IMPL) : IMPL :=
  mkIMPL (_vmName m) v (_stack m) (_dump m)
         (_running m) (_stop m) (_live m) (_threads m).

Definition set_stack (v : list VM.StackEntry) (m : IMPL) : IMPL :=
  mkIMPL (_vmName m) (_registers m) v (_dump m)
         (_running m) (_stop m) (_live m) (_threads m).

Definition set_dump (v : option VM.CoreDump) (m : IMPL) : IMPL :=
  mkIMPL (_vmName m) (_registers m) (_stack m) v
         (_running m) (_stop m) (_live m) (_threads m).

Definition set_running (v : bool) (m : IMPL) : IMPL :=
  mkIMPL (_vmName m) (_registers m) (_stack m) (_dump m)
         v (_stop m) (_live m) (_threads m).

Definition set_stop (v : bool) (m : IMPL) : IMPL :=
  mkIMPL (_vmName m) (_registers m) (_stack m) (_dump m)
         (_running m) v (_live m) (_threads m).

Definition set_live (v : bool) (m : IMPL) : IMPL :=
  mkIMPL (_vmName m) (_registers m) (_stack m) (_dump m)
         (_running m) (_stop m) v (_threads m).

Definition set_threads (v : list Task) (m : IMPL) : IMPL :=
  mkIMPL (_vmName m) (_registers m) (_stack m) (_dump m)
         (_running m) (_stop m) (_live m) v.

(** The loop over [Manage::runningVMs()] shared by the constructor and
    [_updateLiveStatus]: the flag is raised at every matching name and
    never lowered. The list of running machines is an input. *)
Definition isRunningVM (runningVMs : list string) (vmName : string) : bool :=
  fold_left
    (fun live name => if String.eqb name vmName then true else live)
    runningVMs false.

(** [IMPL::IMPL( const std::string & vmName )] *)
Definition new (runningVMs : list string) (vmName : string) : IMPL :=
  {| _vmName    := vmName;
     _registers := None;
     _stack     := [];
     _dump      := None;
     _running   := false;
     _stop      := false;
     _live      := isRunningVM runningVMs vmName;
     _threads   := [] |}.

(** [IMPL::IMPL( const IMPL & o )], which [Monitor( const Monitor & )]
    calls: the member initialiser list names [_vmName], [_registers],
    [_stack], [_dump], [_running], [_stop] and [_live]; [_threads] is
    default-constructed. *)
Definition copy (o : IMPL) : IMPL :=
  {| _vmName    := _vmName o;
     _registers := _registers o;
     _stack     := _stack o;
     _dump      := _dump o;
     _running   := false;
     _stop      := false;
     _live      := false;
     _threads   := [] |}.

(** The accessors return the field, read under the lock. *)
Definition live (m : IMPL) : bool := _live m.
Definition registers (m : IMPL) : option VM.Registers := _registers m.
Definition stack (m : IMPL) : list VM.StackEntry := _stack m.
Definition dump (m : IMPL) : option VM.CoreDump := _dump m.

Definition fourTasks : list Task :=
  [UpdateRegisters; UpdateStack; UpdateMemory; UpdateLiveStatus].

(** [Monitor::start] *)
Definition start (m : IMPL) : IMPL :=
  if _running m then m
  else
    let m1 := set_stop false m in
    let m2 := set_running true m1 in
    set_threads (_threads m2 ++ fourTasks) m2.

(** What one polling thread brings back from the debugger in one
    iteration. *)
Inductive Fetched : Type :=
| FetchedRegisters (regs : option VM.Registers)
| FetchedStack (stack : list VM.StackEntry)
| FetchedDump (dump : option VM.CoreDump)
| FetchedRunningVMs (runningVMs : list string).

Definition task_of (f : Fetched) : Task :=
  match f with
  | FetchedRegisters _  => UpdateRegisters
  | FetchedStack _      => UpdateStack
  | FetchedDump _       => UpdateMemory
  | FetchedRunningVMs _ => UpdateLiveStatus
  end.

(** The second critical section of a polling iteration: the fetched
    value replaces the field. *)
Definition store (f : Fetched) (m : IMPL) : IMPL :=
  match f with
  | FetchedRegisters regs  => set_registers regs m
  | FetchedStack stack     => set_stack stack m
  | FetchedDump dump       => set_dump dump m
  | FetchedRunningVMs vms  => set_live (isRunningVM vms (_vmName m)) m
  end.

(** [_updateRegisters], [_updateStack], [_updateMemory] and
    [_updateLiveStatus] run alone: the loop returns when it reads the
    stop flag set, and otherwise stores what it fetched and goes round
    again. The list of fetched values bounds the number of rounds. *)
Fixpoint _updateRegisters (fetched : list (option VM.Registers)) (m : IMPL)
  : IMPL :=
  match fetched with
  | [] => m
  | regs :: rest =>
      if _stop m then m
      else _updateRegisters rest (store (FetchedRegisters regs) m)
  end.

Fixpoint _updateStack (fetched : list (list VM.StackEntry)) (m : IMPL)
  : IMPL :=
  match fetched with
  | [] => m
  | stack :: rest =>
      if _stop m then m
      else _updateStack rest (store (FetchedStack stack) m)
  end.

Fixpoint _updateMemory (fetched : list (option VM.CoreDump)) (m : IMPL)
  : IMPL :=
  match fetched with
  | [] => m
  | dump :: rest =>
      if _stop m then m
      else _updateMemory rest (store (FetchedDump dump) m)
  end.

Fixpoint _updateLiveStatus (fetched : list (list string)) (m : IMPL)
  : IMPL :=
  match fetched with
  | [] => m
  | vms :: rest =>
      if _stop m then m
      else _updateLiveStatus rest (store (FetchedRunningVMs vms) m)
  end.

Definition holds (ts : list Task) (t : Task) : bool :=
  existsb (Task_eqb t) ts.

Fixpoint release (t : Task) (ts : list Task) : list Task :=
  match ts with
  | [] => []
  | t' :: rest => if Task_eqb t t' then rest else t' :: release t rest
  end.

(** [t.join()] for every handle moved out of the store. A thread that
    had passed its stop-flag check when the flag was set still stores
    the value it is fetching, once, before it returns; [late] lists
    those stores in the order they land. A store whose thread is not
    among the joined handles does not happen. *)
Fixpoint join (threads : list Task) (late : list Fetched) (m : IMPL)
  : IMPL :=
  match late with
  | [] => m
  | f :: rest =>
      if holds threads (task_of f)
      then join (release (task_of f) threads) rest (store f m)
      else join threads rest m
  end.

(** The first critical section of [Monitor::stop]: the handles are
    moved into the local [threads], which leaves [_threads] empty, and
    the stop flag is set. *)
Definition stop_begin (m : IMPL) : list Task * IMPL :=
  (_threads m, set_stop true (set_threads [] m)).

(** [Monitor::stop] *)
Definition stop (late : list Fetched) (m : IMPL) : IMPL :=
  let (threads, m1) := stop_begin m in
  let m2 := join threads late m1 in
  set_running false m2.

(** Calls on a store, interleaved with the stores of its polling
    threads. A thread stores only while its handle is held. *)
Inductive Event : Type :=
| Start
| Stop (late : list Fetched)
| Store (f : Fetched).

Definition exec1 (m : IMPL) (e : Event) : IMPL :=
  match e with
  | Start => start m
  | Stop late => stop late m
  | Store f => if holds (_threads m) (task_of f) then store f m else m
  end.

Definition exec (evs : list Event) (m : IMPL) : IMPL :=
  fold_left exec1 evs m.

(** The state of a store between calls: stopped with no handle, or
    running with the four handles and the stop flag down. *)
Definition stopped (m : IMPL) : Prop :=
  _running m = false /\ _threads m = [].

Definition started (m : IMPL) : Prop :=
  _running m = true /\ _stop m = false /\ _threads m = fourTasks.

(** Whether a sequence of calls leaves a start without its stop: the
    last [Start] or [Stop] of the sequence decides. *)
Fixpoint startPending (running : bool) (evs : list Event) : bool :=
  match evs with
  | [] => running
  | Start :: rest => startPending true rest
  | Stop _ :: rest => startPending false rest
  | Store _ :: rest => startPending running rest
  end.


End Monitor.

(* ------------------------------------------------------------------ *)
(** * The screen driver *)

Module Screen.

(** Modelled from the spec: [Screen] is declared outside the sources.
    The spec gives it the current terminal dimensions, queried fresh at
    each call, and a loop that [start] enters and [stop] asks to leave;
    the two callbacks the controller registers are [UI.onUpdate] and
    [UI.onKeyPress] below. *)
Record Screen : Type := mkScreen
  { width : Z; height : Z; running : bool }.

Definition new (w h : Z) : Screen := mkScreen w h false.

Definition start (s : Screen) : Screen := mkScreen (width s) (height s) true.

Definition stop (s : Screen) : Screen := mkScreen (width s) (height s) false.

(** The terminal is resized. *)
Definition resize (w h : Z) (s : Screen) : Screen := mkScreen w h (running s).

End Screen.

(* ------------------------------------------------------------------ *)
(** * The dashboard controller, [UI.cpp] *)

Module UI.

(** [UI::IMPL] *)
Record IMPL : Type := mkIMPL
  { _running            : bool;
    _vmName             : string;
    _screen             : Screen.Screen;
    _monitor            : Monitor.IMPL;
    _memoryOffset       : Z;
    _memoryBytesPerLine : Z;
    _memoryLines        : Z;
    _totalMemory        : Z }.

Definition set_screen (v : Screen.Screen) (u : IMPL) : IMPL :=
  mkIMPL (_running u) (_vmName u) v (_monitor u) (_memoryOffset u)
         (_memoryBytesPerLine u) (_memoryLines u) (_totalMemory u).

Definition set_monitor (v : Monitor.IMPL) (u : IMPL) : IMPL :=
  mkIMPL (_running u) (_vmName u) (_screen u) v (_memoryOffset u)
         (_memoryBytesPerLine u) (_memoryLines u) (_totalMemory u).

Definition set_memoryOffset (v : Z) (u : IMPL) : IMPL :=
  mkIMPL (_running u) (_vmName u) (_screen u) (_monitor u) v
         (_memoryBytesPerLine u) (_memoryLines u) (_totalMemory u).

Definition set_memoryBytesPerLine (v : Z) (u : IMPL) : IMPL :=
  mkIMPL (_running u) (_vmName u) (_screen u) (_monitor u) (_memoryOffset u)
         v (_memoryLines u) (_totalMemory u).

Definition set_memoryLines (v : Z) (u : IMPL) : IMPL :=
  mkIMPL (_running u) (_vmName u) (_screen u) (_monitor u) (_memoryOffset u)
         (_memoryBytesPerLine u) v (_totalMemory u).

Definition set_totalMemory (v : Z) (u : IMPL) : IMPL :=
  mkIMPL (_running u) (_vmName u) (_screen u) (_monitor u) (_memoryOffset u)
         (_memoryBytesPerLine u) (_memoryLines u) v.

(** [IMPL::IMPL( const std::string & vmName )]; the terminal the
    default-constructed screen sees is [w] by [h]. *)
Definition new (runningVMs : list string) (w h : Z) (vmName : string)
  : IMPL :=
  {| _running            := false;
     _vmName             := vmName;
     _screen             := Screen.new w h;
     _monitor            := Monitor.new runningVMs vmName;
     _memoryOffset       := 0;
     _memoryBytesPerLine := 0;
     _memoryLines        := 0;
     _totalMemory        := 0 |}.

(** [IMPL::IMPL( const IMPL & o )]; the screen is copied as it is, the
    monitor through its own copy constructor. *)
Definition copy (o : IMPL) : IMPL :=
  {| _running            := false;
     _vmName             := _vmName o;
     _screen             := _screen o;
     _monitor            := Monitor.copy (_monitor o);
     _memoryOffset       := _memoryOffset o;
     _memoryBytesPerLine := _memoryBytesPerLine o;
     _memoryLines        := _memoryLines o;
     _totalMemory        := _totalMemory o |}.

(** Calls the controller makes on the two objects it owns, in order. *)
Inductive Call : Type :=
| MonitorStart
| MonitorStop
| ScreenStart
| ScreenStop.

(** [UI::run] *)
Definition run (u : IMPL) : IMPL * list Call :=
  if _running u then (u, [])
  else
    let u1 := set_monitor (Monitor.start (_monitor u)) u in
    let u2 := set_screen (Screen.start (_screen u1)) u1 in
    (u2, [MonitorStart; ScreenStart]).

(** ** The memory viewport *)

(** [_memoryScrollUp] *)
Definition _memoryScrollUp (n : Z) (u : IMPL) : IMPL :=
  if _memoryOffset u >? SizeT.mul (_memoryBytesPerLine u) n
  then set_memoryOffset
         (SizeT.sub (_memoryOffset u) (SizeT.mul (_memoryBytesPerLine u) n))
         u
  else set_memoryOffset 0 u.

(** [_memoryScrollDown] *)
Definition _memoryScrollDown (n : Z) (u : IMPL) : IMPL :=
  if SizeT.add (_memoryOffset u) (SizeT.mul (_memoryBytesPerLine u) n)
     <? _totalMemory u
  then set_memoryOffset
         (SizeT.add (_memoryOffset u) (SizeT.mul (_memoryBytesPerLine u) n))
         u
  else u.

(** [_memoryPageUp], [_memoryPageDown] *)
Definition _memoryPageUp (u : IMPL) : IMPL :=
  _memoryScrollUp (_memoryLines u) u.

Definition _memoryPageDown (u : IMPL) : IMPL :=
  _memoryScrollDown (_memoryLines u) u.

(** ** The key callback *)

Definition key_of (c : ascii) : Z := Z.of_nat (nat_of_ascii c).

(** The handler [_setup] registers with [onKeyPress]. [late] is what the
    polling threads still store while [Monitor::stop] joins them. *)
Definition onKeyPress (late : list Monitor.Fetched) (key : Z) (u : IMPL)
  : IMPL * list Call :=
  if key =? key_of "q" then
    let u1 := set_monitor (Monitor.stop late (_monitor u)) u in
    let u2 := set_screen (Screen.stop (_screen u1)) u1 in
    (u2, [MonitorStop; ScreenStop])
  else if key =? key_of "a" then (_memoryScrollUp 1 u, [])
  else if key =? key_of "s" then (_memoryScrollDown 1 u, [])
  else if key =? key_of "d" then (_memoryPageUp u, [])
  else if key =? key_of "f" then (_memoryPageDown u, [])
  else if key =? key_of "g" then (set_memoryOffset 0 u, [])
  else (u, []).

(** ** Drawing *)

Inductive Panel : Type := Registers | Stack | Memory.

Inductive Window : Type :=
| StdScr
| Win (p : Panel).

(** What a print call writes; the formatting helpers are outside the
    sources, so a text is kept as the values it is formatted from, and a
    [numeric_cast< int >] keeps the value it is given. *)
Inductive Text : Type :=
| Literal (s : string)
| TitleText (vmName : string)
| RegisterText (name : string) (padding : nat) (value : Z)
| StackText (e : VM.StackEntry)
| OffsetText (offset : Z)
| HexText (byte : Z)
| CharText (c : Z).

(** The terminal calls of the drawing routines. A cursor move followed
    by a print is one [PrintAt]; a print at the cursor is [PrintNext]. *)
Inductive DrawOp : Type :=
| NewWin (p : Panel) (nlines ncols y x : Z)
| Box (p : Panel)
| HLine (w : Window) (y x n : Z)
| VLine (w : Window) (y x n : Z)
| PrintAt (w : Window) (y x : Z) (t : Text)
| MoveTo (w : Window) (y x : Z)
| PrintNext (w : Window) (t : Text)
| ScreenRefresh
| WRefresh (p : Panel)
| DelWin (p : Panel).

(** [_drawTitle] *)
Definition _drawTitle (u : IMPL) : list DrawOp :=
  let w := Screen.width (_screen u) in
  [ HLine StdScr 0 0 w;
    PrintAt StdScr 1 0 (TitleText (_vmName u));
    HLine StdScr 2 0 w ].

(** The rows of [_drawRegisters]: one per register, from line 3 down;
    a name shorter than six characters is padded on the left. *)
Fixpoint registerRows (y : Z) (regs : list (string * Z)) : list DrawOp :=
  match regs with
  | [] => []
  | (name, value) :: rest =>
      PrintAt (Win Registers) y 2
              (RegisterText name (6 - String.length name)%nat value)
      :: registerRows (y + 1) rest
  end.

(** [_drawRegisters] *)
Definition _drawRegisters (u : IMPL) : list DrawOp :=
  let w := Screen.width (_screen u) in
  let h := Screen.height (_screen u) in
  if (w <? 30) || (h <? 25) then []
  else
    [ NewWin Registers 22 30 3 0;
      Box Registers;
      PrintAt (Win Registers) 1 2 (Literal "CPU Registers:");
      HLine (Win Registers) 2 1 28 ]
    ++ match Monitor.registers (_monitor u) with
       | Some regs => registerRows 3 (VM.all regs)
       | None => []
       end
    ++ [ ScreenRefresh; WRefresh Registers; DelWin Registers ].

(** The rows of [_drawStack]: the loop leaves at [i == 16]. *)
Fixpoint stackRows (i y : Z) (stack : list VM.StackEntry) : list DrawOp :=
  match stack with
  | [] => []
  | e :: rest =>
      if i =? 16 then []
      else PrintAt (Win Stack) y 2 (StackText e)
           :: stackRows (i + 1) (y + 1) rest
  end.

(** [_drawStack] *)
Definition _drawStack (u : IMPL) : list DrawOp :=
  let w := Screen.width (_screen u) in
  let h := Screen.height (_screen u) in
  if (w <? 190) || (h <? 25) then []
  else
    [ NewWin Stack 22 (w - 30) 3 30;
      Box Stack;
      PrintAt (Win Stack) 1 2 (Literal "Stack:");
      HLine (Win Stack) 2 1 (w - 32);
      PrintAt (Win Stack) 3 2
              (Literal "SS:BP:                | Ret SS:BP:            | Ret CS:EIP:           | Arg 0:     | Arg 1:     | Arg 2:     | Arg 3:     | CS:EIP:");
      HLine (Win Stack) 4 1 (w - 32) ]
    ++ stackRows 0 5 (Monitor.stack (_monitor u))
    ++ [ ScreenRefresh; WRefresh Stack; DelWin Stack ].

(** The first loop of [_drawMemory]: a row header at every multiple of
    the bytes per line, then the byte. *)
Fixpoint hexRows (bytesPerLine : Z) (i y offset : Z) (mem : list Z)
  : list DrawOp :=
  match mem with
  | [] => []
  | b :: rest =>
      if i mod bytesPerLine =? 0
      then PrintAt (Win Memory) (y + 1) 2 (OffsetText offset)
           :: PrintNext (Win Memory) (HexText b)
           :: hexRows bytesPerLine (i + 1) (y + 1)
                      (SizeT.add offset bytesPerLine) rest
      else PrintNext (Win Memory) (HexText b)
           :: hexRows bytesPerLine (i + 1) y offset rest
  end.

(** A byte as the second loop shows it: itself when it prints and is
    not a space, a dot otherwise. *)
Definition shown (b : Z) : Z :=
  if (33 <=? b) && (b <=? 126) then b else key_of ".".

(** The second loop of [_drawMemory]. *)
Fixpoint asciiRows (bytesPerLine : Z) (i y : Z) (mem : list Z)
  : list DrawOp :=
  match mem with
  | [] => []
  | b :: rest =>
      if i mod bytesPerLine =? 0
      then MoveTo (Win Memory) (y + 1)
                  (SizeT.mul bytesPerLine 3 + 4 + 18)
           :: PrintNext (Win Memory) (CharText (shown b))
           :: asciiRows bytesPerLine (i + 1) (y + 1) rest
      else PrintNext (Win Memory) (CharText (shown b))
           :: asciiRows bytesPerLine (i + 1) y rest
  end.

Definition memoryFrame (w h : Z) : list DrawOp :=
  [ NewWin Memory (h - 25) w 25 0;
    Box Memory;
    PrintAt (Win Memory) 1 2 (Literal "Memory:");
    HLine (Win Memory) 2 1 (w - 2) ].

Definition memoryFlush : list DrawOp :=
  [ ScreenRefresh; WRefresh Memory; DelWin Memory ].

(** [_drawMemory] *)
Definition _drawMemory (u : IMPL) : IMPL * list DrawOp :=
  let w := Screen.width (_screen u) in
  let h := Screen.height (_screen u) in
  if (w <? 30) || (h <? 35) then (u, [])
  else
    match Monitor.dump (_monitor u) with
    | Some dump =>
        if VM.memorySize dump >? 0 then
          let cols := SizeT.sub w 4 in
          let lines := SizeT.sub h 29 in
          let u1 := set_totalMemory (VM.memorySize dump) u in
          let u2 := set_memoryBytesPerLine (SizeT.sub (cols / 4) 5) u1 in
          let u3 := set_memoryLines lines u2 in
          let size := SizeT.mul (_memoryBytesPerLine u3) lines in
          let offset := _memoryOffset u3 in
          let mem := VM.readMemory dump offset size in
          (u3,
           memoryFrame w h
           ++ hexRows (_memoryBytesPerLine u3) 0 2 offset mem
           ++ [ VLine (Win Memory) 3
                      (SizeT.mul (_memoryBytesPerLine u3) 3 + 4 + 16)
                      lines ]
           ++ asciiRows (_memoryBytesPerLine u3) 0 2 mem
           ++ memoryFlush)
        else (u, memoryFrame w h ++ memoryFlush)
    | None => (u, memoryFrame w h ++ memoryFlush)
    end.

(** The handler [_setup] registers with [onUpdate]: one render tick. *)
Definition onUpdate (u : IMPL) : IMPL * list DrawOp :=
  let ops1 := _drawTitle u in
  let ops2 := _drawRegisters u in
  let ops3 := _drawStack u in
  let (u', ops4) := _drawMemory u in
  (u', ops1 ++ ops2 ++ ops3 ++ ops4).

(** The panels a tick opens a window for. *)
Definition opens (p : Panel) (op : DrawOp) : bool :=
  match op, p with
  | NewWin Registers _ _ _ _, Registers
  | NewWin Stack _ _ _ _, Stack
  | NewWin Memory _ _ _ _, Memory => true
  | _, _ => false
  end.

Definition draws (p : Panel) (ops : list DrawOp) : bool :=
  existsb (opens p) ops.

(** ** What happens to a controller *)

Inductive Input : Type :=
| InRun
| InKey (late : list Monitor.Fetched) (key : Z)
| InTick
| InResize (w h : Z)
| InPoll (f : Monitor.Fetched)
| InCopy.

Definition exec1 (u : IMPL) (i : Input) : IMPL :=
  match i with
  | InRun => fst (run u)
  | InKey late key => fst (onKeyPress late key u)
  | InTick => fst (onUpdate u)
  | InResize w h => set_screen (Screen.resize w h (_screen u)) u
  | InPoll f =>
      set_monitor (Monitor.exec1 (_monitor u) (Monitor.Store f)) u
  | InCopy => copy u
  end.

Definition exec (inputs : list Input) (u : IMPL) : IMPL :=
  fold_left exec1 inputs u.

(** The states of a controller: a freshly constructed one, and what any
    inputs make of it. *)
Definition reachable (u : IMPL) : Prop :=
  exists runningVMs w h vmName inputs,
    u = exec inputs (new runningVMs w h vmName).

(** The viewport invariant of the spec. *)
Definition offsetInMemory (u : IMPL) : Prop :=
  (_totalMemory u > 0 -> 0 <= _memoryOffset u < _totalMemory u) /\
  (_totalMemory u = 0 -> _memoryOffset u = 0).

Definition offsetInMemoryb (u : IMPL) : bool :=
  if _totalMemory u >? 0
  then (0 <=? _memoryOffset u) && (_memoryOffset u <? _totalMemory u)
  else _memoryOffset u =? 0.

(** Whether a redraw now would leave the total size alone (the terminal
    is too small for the memory panel, or the dump is absent or empty)
    or take it from a dump larger than the viewport offset. *)
Definition dumpCovers (u : IMPL) : bool :=
  (Screen.width (_screen u) <? 30)
  || (Screen.height (_screen u) <? 35)
  || match Monitor.dump (_monitor u) with
     | Some d =>
         (VM.memorySize d =? 0) || (_memoryOffset u <? VM.memorySize d)
     | None => true
     end.

(** [dumpCovers] at every tick of a run. *)
Fixpoint dumpsCover (u : IMPL) (inputs : list Input) : bool :=
  match inputs with
  | [] => true
  | i :: rest =>
      match i with InTick => dumpCovers u | _ => true end
      && dumpsCover (exec1 u i) rest
  end.

(** A controller whose viewport is [offset], [bytesPerLine], [lines] and
    [total], and which is otherwise as constructed. *)
Definition withViewport (offset bytesPerLine lines total : Z) (u : IMPL)
  : IMPL :=
  set_memoryOffset offset
    (set_memoryBytesPerLine bytesPerLine
       (set_memoryLines lines (set_totalMemory total u))).

(** A dump of [n] zero bytes. *)
Definition zeroDump (n : nat) : VM.CoreDump := VM.mkCoreDump (repeat 0 n).

(** A run in which the poller first delivers a dump of 100 bytes and
    later one of 20 bytes. *)
Definition shrinkingDumpRun : list Input :=
  [ InRun;
    InPoll (Monitor.FetchedDump (Some (zeroDump 100)));
    InTick;
    InKey [] (key_of "s");
    InPoll (Monitor.FetchedDump (Some (zeroDump 20)));
    InTick ].

(** ** The padding loop of [_drawRegisters] *)

(** [for( size_t i = reg.size(); i < 6; i++ ) reg = " " + reg;], the
    counter [i] and the string [reg] carried through the rounds; [fuel]
    bounds the number of rounds. *)
Fixpoint padLoop (fuel i : nat) (reg : string) : string :=
  match fuel with
  | O => reg
  | S fuel' =>
      if (i <? 6)%nat
      then padLoop fuel' (S i) (String " " reg)
      else reg
  end.

(** The loop started at [i = reg.size()]; it leaves after at most six
    rounds. *)
Definition padRegister (reg : string) : string :=
  padLoop 6 (String.length reg) reg.

(** [n] spaces. *)
Fixpoint spaces (n : nat) : string :=
  match n with
  | O => EmptyString
  | S n' => String " " (spaces n')
  end.

(** ** Reading a list of drawing calls *)

Fixpoint collect {A : Type} (f : DrawOp -> option A) (ops : list DrawOp)
  : list A :=
  match ops with
  | [] => []
  | op :: rest =>
      match f op with
      | Some a => a :: collect f rest
      | None => collect f rest
      end
  end.

(** The byte of a hex print, the character of a character print. *)
Definition hexByte (op : DrawOp) : option Z :=
  match op with
  | PrintNext (Win Memory) (HexText b) => Some b
  | _ => None
  end.

Definition asciiChar (op : DrawOp) : option Z :=
  match op with
  | PrintNext (Win Memory) (CharText c) => Some c
  | _ => None
  end.

(** The line and the offset of a row header of the hex view; the line of
    a cursor move of the character view. *)
Definition rowHeader (op : DrawOp) : option (Z * Z) :=
  match op with
  | PrintAt (Win Memory) y _ (OffsetText offset) => Some (y, offset)
  | _ => None
  end.

Definition rowStart (op : DrawOp) : option Z :=
  match op with
  | MoveTo (Win Memory) y _ => Some y
  | _ => None
  end.

(** The line a stack or register row is printed on. *)
Definition rowLine (op : DrawOp) : option Z :=
  match op with
  | PrintAt _ y _ _ => Some y
  | _ => None
  end.



(** What the controller and its monitor keep between them. *)
Definition controllerInv (u : IMPL) : Prop :=
  _vmName u = Monitor._vmName (_monitor u) /\
  (Monitor.stopped (_monitor u) \/ Monitor.started (_monitor u)).

End UI.

(* ------------------------------------------------------------------ *)
(** * Facts about the snapshot store *)

Section MonitorFacts.

Import Monitor.

Lemma store_running (f : Fetched) (m : IMPL) :
  _running (store f m) = _running m.
Proof. destruct f; reflexivity. Qed.

Lemma store_stop (f : Fetched) (m : IMPL) :
  _stop (store f m) = _stop m.
Proof. destruct f; reflexivity. Qed.

Lemma store_threads (f : Fetched) (m : IMPL) :
  _threads (store f m) = _threads m.
Proof. destruct f; reflexivity. Qed.

Lemma join_flags (late : list Fetched) :
  forall (threads : list Task) (m : IMPL),
    _running (join threads late m) = _running m /\
    _stop (join threads late m) = _stop m /\
    _threads (join threads late m) = _threads m.
Proof.
  induction late as [|f late IH]; intros threads m; simpl.
  - auto.
  - destruct (holds threads (task_of f)).
    + destruct (IH (release (task_of f) threads) (store f m)) as (R & S & T).
      rewrite R, S, T, store_running, store_stop, store_threads. auto.
    + apply IH.
Qed.

(** With no handle to join, no late store lands. *)
Lemma join_no_thread (late : list Fetched) (m : IMPL) :
  join [] late m = m.
Proof.
  induction late as [|f late IH]; simpl; [reflexivity | exact IH].
Qed.

Lemma stop_flags (late : list Fetched) (m : IMPL) :
  _running (stop late m) = false /\
  _stop (stop late m) = true /\
  _threads (stop late m) = [].
Proof.
  unfold stop, stop_begin.
  destruct (join_flags late (_threads m) (set_stop true (set_threads [] m)))
    as (_ & S & T).
  simpl. rewrite S, T. auto.
Qed.

Lemma stop_stopped (late : list Fetched) (m : IMPL) :
  stopped (stop late m).
Proof.
  destruct (stop_flags late m) as (R & _ & T). split; assumption.
Qed.

Lemma start_started (m : IMPL) :
  stopped m -> started (start m).
Proof.
  intros [R T]. unfold start, started. rewrite R. simpl. rewrite T. auto.
Qed.

Lemma start_running (m : IMPL) :
  _running m = true -> start m = m.
Proof. intros R. unfold start. rewrite R. reflexivity. Qed.

(** Between calls a store is stopped or started, whatever its polling
    threads store in the meantime. *)
Lemma exec1_between (m : IMPL) (e : Event) :
  stopped m \/ started m ->
  stopped (exec1 m e) \/ started (exec1 m e).
Proof.
  intros H. destruct e as [|late|f]; simpl.
  - destruct H as [H | H].
    + right. apply start_started, H.
    + right. rewrite start_running; [exact H | apply H].
  - left. apply stop_stopped.
  - destruct (holds (_threads m) (task_of f)); [|exact H].
    unfold stopped, started.
    rewrite store_running, store_stop, store_threads. exact H.
Qed.

Lemma exec1_running (m : IMPL) (e : Event) :
  _running (exec1 m e) =
  match e with
  | Start => true
  | Stop _ => false
  | Store _ => _running m
  end.
Proof.
  destruct e as [|late|f]; cbn [exec1].
  - unfold start. destruct (_running m) eqn:R; [exact R | reflexivity].
  - apply stop_flags.
  - destruct (holds (_threads m) (task_of f));
      [apply store_running | reflexivity].
Qed.

Lemma exec_between (evs : list Event) :
  forall m : IMPL,
    stopped m \/ started m ->
    stopped (exec evs m) \/ started (exec evs m).
Proof.
  induction evs as [|e evs IH]; intros m H; simpl.
  - exact H.
  - apply IH, exec1_between, H.
Qed.

Lemma exec_running (evs : list Event) :
  forall m : IMPL,
    _running (exec evs m) = startPending (_running m) evs.
Proof.
  induction evs as [|e evs IH]; intros m; simpl.
  - reflexivity.
  - unfold exec in IH. rewrite IH, exec1_running.
    destruct e; reflexivity.
Qed.

(** A stop on a store that holds no handle only sets the stop flag. *)
Lemma stop_stopped_store (late : list Fetched) (m : IMPL) :
  stopped m -> stop late m = set_stop true m.
Proof.
  intros [R T]. unfold stop, stop_begin. rewrite T, join_no_thread.
  destruct m as [n r s d run st l th]; simpl in *. subst. reflexivity.
Qed.

(** Both constructors leave a store stopped. *)
Lemma new_stopped (vms : list string) (name : string) :
  stopped (new vms name).
Proof. split; reflexivity. Qed.

Lemma copy_stopped (o : IMPL) : stopped (copy o).
Proof. split; reflexivity. Qed.

End MonitorFacts.

(** C1, as the source has it. Take a store that is stopped (as both
    constructors leave it) and any sequence of [start] and [stop] calls,
    interleaved with stores of the polling threads. Afterwards the store
    is running exactly when the last call was a [start] with no [stop]
    behind it, and it is either stopped with no handle or started with
    the four handles. At that point: [start] on the running store changes
    nothing; [start] on the stopped store lowers the stop flag, raises
    running and holds exactly the four polling handles, the snapshots
    untouched; [stop] first moves the handles out and sets the stop flag,
    and returns with running false, no handle and the stop flag set; a
    [stop] on the stopped store changes nothing but the stop flag, which
    it sets, so it changes nothing at all once the store has been stopped
    before, and a [start] after it gives the state a [start] without it
    gives. *)
Theorem start_stop_lifecycle :
  forall (m : Monitor.IMPL) (evs : list Monitor.Event),
    Monitor.stopped m ->
    let m' := Monitor.exec evs m in
    Monitor._running m' = Monitor.startPending false evs /\
    (Monitor.stopped m' \/ Monitor.started m') /\
    (Monitor._running m' = true -> Monitor.start m' = m') /\
    (Monitor._running m' = false ->
       Monitor._stop (Monitor.start m') = false /\
       Monitor._running (Monitor.start m') = true /\
       Monitor._threads (Monitor.start m') = Monitor.fourTasks /\
       Monitor.start m' =
         Monitor.set_threads Monitor.fourTasks
           (Monitor.set_running true (Monitor.set_stop false m'))) /\
    (fst (Monitor.stop_begin m') = Monitor._threads m' /\
     snd (Monitor.stop_begin m') =
       Monitor.set_stop true (Monitor.set_threads [] m')) /\
    (forall late,
       Monitor._running (Monitor.stop late m') = false /\
       Monitor._stop (Monitor.stop late m') = true /\
       Monitor._threads (Monitor.stop late m') = [] /\
       forall late',
         Monitor.stop late' (Monitor.stop late m') = Monitor.stop late m') /\
    (forall late,
       Monitor._running m' = false ->
       Monitor.stop late m' = Monitor.set_stop true m' /\
       (Monitor._stop m' = true -> Monitor.stop late m' = m') /\
       Monitor.start (Monitor.stop late m') = Monitor.start m').
Proof.
  intros m evs Hm m'.
  assert (Hb : Monitor.stopped m' \/ Monitor.started m')
    by (apply exec_between; left; exact Hm).
  assert (Hs : Monitor._running m' = false -> Monitor.stopped m').
  { intros R. destruct Hb as [H | (R' & _)]; [exact H | congruence]. }
  split; [|split; [exact Hb|split; [|split; [|split; [|split]]]]].
  - unfold m'. rewrite exec_running. destruct Hm as [R _]. rewrite R.
    reflexivity.
  - apply start_running.
  - intros R. destruct (start_started m' (Hs R)) as (R1 & S1 & T1).
    repeat split; try assumption.
    unfold Monitor.start. rewrite R. destruct (Hs R) as [_ T].
    simpl. rewrite T. reflexivity.
  - split; reflexivity.
  - intros late. destruct (stop_flags late m') as (R & S & T).
    repeat split; try assumption.
    intros late'.
    rewrite (stop_stopped_store late' _ (stop_stopped late m')).
    destruct (Monitor.stop late m') as [n r s d run st l th].
    simpl in S. subst st. reflexivity.
  - intros late R. pose proof (stop_stopped_store late m' (Hs R)) as E.
    split; [exact E|]. rewrite E. split.
    + intros S. destruct m' as [n r s d run st l th].
      simpl in S. subst st. reflexivity.
    + destruct m' as [n r s d run st l th]. simpl in R. subst run.
      reflexivity.
Qed.

Lemma start_stop_lifecycle_witness :
  Monitor.stopped (Monitor.new [] "vm") /\
  Monitor._running
    (Monitor.exec
       [Monitor.Start; Monitor.Start; Monitor.Stop []; Monitor.Stop []]
       (Monitor.new [] "vm")) = false /\
  Monitor.stop []
    (Monitor.exec
       [Monitor.Start; Monitor.Start; Monitor.Stop []; Monitor.Stop []]
       (Monitor.new [] "vm")) =
  Monitor.exec
    [Monitor.Start; Monitor.Start; Monitor.Stop []; Monitor.Stop []]
    (Monitor.new [] "vm").
Proof.
  assert (Hm : Monitor.stopped (Monitor.new [] "vm"))
    by (split; reflexivity).
  split; [exact Hm|].
  destruct (start_stop_lifecycle (Monitor.new [] "vm")
              [Monitor.Start; Monitor.Start; Monitor.Stop []; Monitor.Stop []]
              Hm)
    as (R & _ & _ & _ & _ & _ & X).
  split; [exact R|].
  destruct (X [] R) as (_ & N & _). apply N. reflexivity.
Defined.

(** C1 as stated fails: a freshly constructed store is stopped and its
    stop flag is down; [stop] on it sets the flag, so the state after the
    call is not the state before it. *)
Lemma stop_on_fresh_store_changes_stop_flag :
  Monitor._running (Monitor.new [] "vm") = false /\
  Monitor._threads (Monitor.new [] "vm") = [] /\
  Monitor._stop (Monitor.new [] "vm") = false /\
  Monitor._stop (Monitor.stop [] (Monitor.new [] "vm")) = true /\
  Monitor.stop [] (Monitor.new [] "vm") <> Monitor.new [] "vm".
Proof.
  repeat split. discriminate.
Qed.

(** C4. A copy of any store, running or not, is not live, holds no task
    handle, is neither running nor asked to stop, and its [registers],
    [stack] and [dump] accessors return the fields of the source. *)
Theorem copy_is_stopped_snapshot :
  forall o : Monitor.IMPL,
    Monitor.live (Monitor.copy o) = false /\
    Monitor._threads (Monitor.copy o) = [] /\
    Monitor._running (Monitor.copy o) = false /\
    Monitor._stop (Monitor.copy o) = false /\
    Monitor.registers (Monitor.copy o) = Monitor._registers o /\
    Monitor.stack (Monitor.copy o) = Monitor._stack o /\
    Monitor.dump (Monitor.copy o) = Monitor._dump o.
Proof.
  intros o. repeat split.
Qed.

(** C5, as the source has it. The copy takes the name of the machine and
    three of the four snapshots from the source: registers, stack and
    dump. It takes nothing else: liveness, running and the stop flag are
    set to false and the handles are empty, so two sources that agree on
    those four fields have equal copies. *)
Theorem copy_takes_name_and_three_snapshots :
  forall o : Monitor.IMPL,
    Monitor.copy o =
      Monitor.mkIMPL (Monitor._vmName o) (Monitor._registers o)
                     (Monitor._stack o) (Monitor._dump o)
                     false false false [] /\
    (forall o' : Monitor.IMPL,
       Monitor._vmName o' = Monitor._vmName o ->
       Monitor._registers o' = Monitor._registers o ->
       Monitor._stack o' = Monitor._stack o ->
       Monitor._dump o' = Monitor._dump o ->
       Monitor.copy o' = Monitor.copy o).
Proof.
  intros o. split; [reflexivity|].
  intros o' N R S D. unfold Monitor.copy. rewrite N, R, S, D. reflexivity.
Qed.

Lemma copy_takes_name_and_three_snapshots_witness :
  Monitor.copy (Monitor.start (Monitor.new ["vm"%string] "vm")) =
  Monitor.copy (Monitor.new [] "vm").
Proof.
  apply (copy_takes_name_and_three_snapshots (Monitor.new [] "vm"));
    reflexivity.
Defined.

(** C5 as stated fails: the liveness flag of a live source is not
    copied. *)
Lemma copy_drops_liveness :
  Monitor._live (Monitor.new ["vm"%string] "vm") = true /\
  Monitor._live (Monitor.copy (Monitor.new ["vm"%string] "vm")) = false /\
  Monitor._live (Monitor.copy (Monitor.new ["vm"%string] "vm")) <>
  Monitor._live (Monitor.new ["vm"%string] "vm").
Proof.
  repeat split. discriminate.
Qed.


(* ------------------------------------------------------------------ *)
(** * Facts about [size_t] arithmetic *)

Lemma modulus_pos : 0 < SizeT.modulus.
Proof. reflexivity. Qed.

Lemma wrap_range (z : Z) : 0 <= SizeT.wrap z < SizeT.modulus.
Proof. apply Z.mod_pos_bound, modulus_pos. Qed.

Lemma wrap_small (z : Z) : 0 <= z < SizeT.modulus -> SizeT.wrap z = z.
Proof. apply Z.mod_small. Qed.

Lemma memorySize_range (d : VM.CoreDump) :
  0 <= VM.memorySize d < SizeT.modulus.
Proof. apply wrap_range. Qed.

(* ------------------------------------------------------------------ *)
(** * Facts about the memory viewport *)

Lemma scrollUp_fields (n : Z) (u : UI.IMPL) :
  UI._memoryScrollUp n u =
  UI.set_memoryOffset (UI._memoryOffset (UI._memoryScrollUp n u)) u.
Proof.
  unfold UI._memoryScrollUp.
  destruct (UI._memoryOffset u >? _); reflexivity.
Qed.

Lemma scrollDown_fields (n : Z) (u : UI.IMPL) :
  UI._memoryScrollDown n u =
  UI.set_memoryOffset (UI._memoryOffset (UI._memoryScrollDown n u)) u.
Proof.
  unfold UI._memoryScrollDown.
  destruct (_ <? UI._totalMemory u); [reflexivity|].
  destruct u; reflexivity.
Qed.

(** Scrolling up in exact arithmetic, when the distance fits [size_t]. *)
Lemma scrollUp_exact (n : Z) (u : UI.IMPL) :
  0 <= UI._memoryOffset u < SizeT.modulus ->
  0 <= UI._memoryBytesPerLine u * n < SizeT.modulus ->
  UI._memoryOffset (UI._memoryScrollUp n u) =
  Z.max 0 (UI._memoryOffset u - UI._memoryBytesPerLine u * n).
Proof.
  intros Ho Hk. unfold UI._memoryScrollUp, SizeT.sub, SizeT.mul.
  rewrite (wrap_small _ Hk).
  destruct (UI._memoryOffset u >? UI._memoryBytesPerLine u * n) eqn:E; simpl.
  - apply Z.gtb_lt in E. rewrite wrap_small by lia. lia.
  - rewrite Z.gtb_ltb in E. apply Z.ltb_ge in E. lia.
Qed.

(** Scrolling down in exact arithmetic, when the target fits [size_t]. *)
Lemma scrollDown_exact (n : Z) (u : UI.IMPL) :
  0 <= UI._memoryOffset u ->
  0 <= UI._memoryBytesPerLine u * n ->
  UI._memoryOffset u + UI._memoryBytesPerLine u * n < SizeT.modulus ->
  UI._memoryOffset (UI._memoryScrollDown n u) =
  if UI._memoryOffset u + UI._memoryBytesPerLine u * n <? UI._totalMemory u
  then UI._memoryOffset u + UI._memoryBytesPerLine u * n
  else UI._memoryOffset u.
Proof.
  intros Ho Hk Hs. unfold UI._memoryScrollDown, SizeT.add, SizeT.mul.
  rewrite (wrap_small (UI._memoryBytesPerLine u * n)) by lia.
  rewrite (wrap_small (UI._memoryOffset u + _)) by lia.
  destruct (_ <? UI._totalMemory u); reflexivity.
Qed.

Lemma set_memoryOffset_same (u : UI.IMPL) :
  UI.set_memoryOffset (UI._memoryOffset u) u = u.
Proof. destruct u; reflexivity. Qed.

(** C2, as the source has it. Take a viewport at offset [o] with [P]
    bytes per line and total size [T], and a line count [n], such that
    [o + P*n] fits [size_t]. Then [_memoryScrollDown n] moves the offset
    to [o + P*n] if that is below [T] and changes nothing otherwise, and
    [_memoryScrollUp n] moves it to [o - P*n] if that is not negative and
    to 0 otherwise; nothing but the offset changes. With [P = 16] and
    [T = 100], from offset 0: one scroll down gives 16, five more give
    96, a further one leaves 96, a scroll up gives 80 and the [g] key
    gives 0. *)
Theorem scroll_by_lines :
  (forall (u : UI.IMPL) (n : Z),
     0 <= UI._memoryOffset u ->
     0 <= UI._memoryBytesPerLine u ->
     0 <= n ->
     UI._memoryOffset u + UI._memoryBytesPerLine u * n < SizeT.modulus ->
     UI._memoryScrollDown n u =
       (if UI._memoryOffset u + UI._memoryBytesPerLine u * n
           <? UI._totalMemory u
        then UI.set_memoryOffset
               (UI._memoryOffset u + UI._memoryBytesPerLine u * n) u
        else u) /\
     UI._memoryScrollUp n u =
       (if 0 <=? UI._memoryOffset u - UI._memoryBytesPerLine u * n
        then UI.set_memoryOffset
               (UI._memoryOffset u - UI._memoryBytesPerLine u * n) u
        else UI.set_memoryOffset 0 u)) /\
  (forall u : UI.IMPL,
     let u0 := UI.withViewport 0 16 (UI._memoryLines u) 100 u in
     let u1 := UI._memoryScrollDown 1 u0 in
     let u6 :=
       UI._memoryScrollDown 1
         (UI._memoryScrollDown 1
            (UI._memoryScrollDown 1
               (UI._memoryScrollDown 1 (UI._memoryScrollDown 1 u1)))) in
     let u7 := UI._memoryScrollDown 1 u6 in
     let u8 := UI._memoryScrollUp 1 u7 in
     let u9 := fst (UI.onKeyPress [] (UI.key_of "g") u8) in
     UI._memoryOffset u1 = 16 /\
     UI._memoryOffset u6 = 96 /\
     UI._memoryOffset u7 = 96 /\
     UI._memoryOffset u8 = 80 /\
     UI._memoryOffset u9 = 0).
Proof.
  split.
  - intros u n Ho HP Hn Hs.
    assert (Hk : 0 <= UI._memoryBytesPerLine u * n) by nia.
    split.
    + rewrite scrollDown_fields, scrollDown_exact by lia.
      destruct (_ <? UI._totalMemory u);
        [reflexivity | apply set_memoryOffset_same].
    + rewrite scrollUp_fields, scrollUp_exact by lia.
      destruct (0 <=? UI._memoryOffset u - UI._memoryBytesPerLine u * n)
        eqn:E.
      * apply Z.leb_le in E. rewrite Z.max_r by exact E. reflexivity.
      * apply Z.leb_gt in E. rewrite Z.max_l by lia. reflexivity.
  - intros u. vm_compute. repeat split.
Qed.

Lemma scroll_by_lines_witness :
  UI._memoryScrollDown 5 (UI.withViewport 32 16 11 200 (UI.new [] 200 40 "vm")) =
  UI.withViewport 112 16 11 200 (UI.new [] 200 40 "vm") /\
  UI._memoryScrollUp 5 (UI.withViewport 32 16 11 200 (UI.new [] 200 40 "vm")) =
  UI.withViewport 0 16 11 200 (UI.new [] 200 40 "vm").
Proof.
  apply (proj1 scroll_by_lines
           (UI.withViewport 32 16 11 200 (UI.new [] 200 40 "vm")) 5);
    vm_compute; congruence.
Defined.

(** C2 as stated fails where [P*n] does not fit [size_t]: with [P = 16],
    [T = 100] and [n = 2^60 + 1] the product wraps to 16. From offset 0,
    [0 + P*n] is not below [T], yet scrolling down moves the offset to
    16; from offset 20, [20 - P*n] is negative, yet scrolling up moves
    the offset to 4 and not to 0. *)
Lemma scroll_wraps_around :
  ~ (0 + 16 * (2 ^ 60 + 1) < 100) /\
  UI._memoryOffset
    (UI._memoryScrollDown (2 ^ 60 + 1)
       (UI.withViewport 0 16 11 100 (UI.new [] 200 40 "vm"))) = 16 /\
  ~ (0 <= 20 - 16 * (2 ^ 60 + 1)) /\
  UI._memoryOffset
    (UI._memoryScrollUp (2 ^ 60 + 1)
       (UI.withViewport 20 16 11 100 (UI.new [] 200 40 "vm"))) = 4.
Proof.
  repeat split; try (vm_compute; congruence).
Qed.

(* ------------------------------------------------------------------ *)
(** * The viewport invariant *)

(** The invariant carried through a run: the offset is inside the
    memory, and the total size is a [size_t]. *)
Definition viewportInv (u : UI.IMPL) : Prop :=
  UI.offsetInMemory u /\ 0 <= UI._totalMemory u < SizeT.modulus.

Lemma viewportInv_same_viewport (u u' : UI.IMPL) :
  UI._memoryOffset u' = UI._memoryOffset u ->
  UI._totalMemory u' = UI._totalMemory u ->
  viewportInv u -> viewportInv u'.
Proof.
  unfold viewportInv, UI.offsetInMemory. intros -> ->. exact (fun H => H).
Qed.

Lemma viewportInv_new (vms : list string) (w h : Z) (name : string) :
  viewportInv (UI.new vms w h name).
Proof.
  unfold viewportInv, UI.offsetInMemory. simpl.
  pose proof modulus_pos. repeat split; lia.
Qed.

Lemma viewportInv_reset (u : UI.IMPL) :
  viewportInv u -> viewportInv (UI.set_memoryOffset 0 u).
Proof.
  unfold viewportInv, UI.offsetInMemory. simpl. intros (_ & HT).
  repeat split; lia.
Qed.

Lemma viewportInv_scrollUp (n : Z) (u : UI.IMPL) :
  viewportInv u -> viewportInv (UI._memoryScrollUp n u).
Proof.
  intros H. unfold UI._memoryScrollUp.
  destruct (UI._memoryOffset u >? _) eqn:E; [|apply viewportInv_reset, H].
  apply Z.gtb_lt in E.
  pose proof (wrap_range (UI._memoryBytesPerLine u * n)) as Hk.
  fold (SizeT.mul (UI._memoryBytesPerLine u) n) in Hk.
  destruct H as ((Hpos & Hzero) & HT).
  unfold viewportInv, UI.offsetInMemory. simpl.
  assert (Hgt : UI._totalMemory u > 0).
  { destruct (Z.eq_dec (UI._totalMemory u) 0) as [Z0 | NZ]; [|lia].
    specialize (Hzero Z0). lia. }
  specialize (Hpos Hgt). unfold SizeT.sub.
  rewrite wrap_small by lia. repeat split; lia.
Qed.

Lemma viewportInv_scrollDown (n : Z) (u : UI.IMPL) :
  viewportInv u -> viewportInv (UI._memoryScrollDown n u).
Proof.
  intros H. unfold UI._memoryScrollDown.
  destruct (_ <? UI._totalMemory u) eqn:E; [|exact H].
  apply Z.ltb_lt in E. destruct H as (_ & HT).
  unfold viewportInv, UI.offsetInMemory. simpl.
  pose proof (wrap_range
                (UI._memoryOffset u
                 + SizeT.mul (UI._memoryBytesPerLine u) n)) as Hw.
  fold (SizeT.add (UI._memoryOffset u)
                  (SizeT.mul (UI._memoryBytesPerLine u) n)) in Hw.
  repeat split; lia.
Qed.

(** Every key keeps the offset inside the memory, in [size_t]
    arithmetic as it is. *)
Lemma viewportInv_onKeyPress (late : list Monitor.Fetched) (key : Z)
      (u : UI.IMPL) :
  viewportInv u -> viewportInv (fst (UI.onKeyPress late key u)).
Proof.
  intros H. unfold UI.onKeyPress.
  destruct (key =? UI.key_of "q"); [exact H|].
  destruct (key =? UI.key_of "a"); [apply viewportInv_scrollUp, H|].
  destruct (key =? UI.key_of "s"); [apply viewportInv_scrollDown, H|].
  destruct (key =? UI.key_of "d"); [apply viewportInv_scrollUp, H|].
  destruct (key =? UI.key_of "f"); [apply viewportInv_scrollDown, H|].
  destruct (key =? UI.key_of "g"); [apply viewportInv_reset, H|].
  exact H.
Qed.

Lemma onUpdate_state (u : UI.IMPL) :
  fst (UI.onUpdate u) = fst (UI._drawMemory u).
Proof.
  unfold UI.onUpdate. destruct (UI._drawMemory u). reflexivity.
Qed.

Lemma onUpdate_ops (u : UI.IMPL) :
  snd (UI.onUpdate u) =
  UI._drawTitle u ++ UI._drawRegisters u ++ UI._drawStack u
  ++ snd (UI._drawMemory u).
Proof.
  unfold UI.onUpdate. destruct (UI._drawMemory u). reflexivity.
Qed.

(** What a redraw does to the controller: nothing, or it refreshes the
    total size, the bytes per line and the line count from a dump that is
    present and not empty, on a terminal of at least 30 by 35. *)
Lemma drawMemory_state (u : UI.IMPL) :
  fst (UI._drawMemory u) = u \/
  exists d,
    Monitor.dump (UI._monitor u) = Some d /\
    VM.memorySize d > 0 /\
    30 <= Screen.width (UI._screen u) /\
    35 <= Screen.height (UI._screen u) /\
    fst (UI._drawMemory u) =
      UI.set_memoryLines (SizeT.sub (Screen.height (UI._screen u)) 29)
        (UI.set_memoryBytesPerLine
           (SizeT.sub (SizeT.sub (Screen.width (UI._screen u)) 4 / 4) 5)
           (UI.set_totalMemory (VM.memorySize d) u)).
Proof.
  unfold UI._drawMemory.
  destruct (Screen.width (UI._screen u) <? 30) eqn:W; [left; reflexivity|].
  destruct (Screen.height (UI._screen u) <? 35) eqn:H; [left; reflexivity|].
  simpl. apply Z.ltb_ge in W, H.
  destruct (Monitor.dump (UI._monitor u)) as [d|]; [|left; reflexivity].
  destruct (VM.memorySize d >? 0) eqn:S; [|left; reflexivity].
  right. exists d. apply Z.gtb_lt in S. repeat split; try lia.
Qed.

Lemma viewportInv_onUpdate (u : UI.IMPL) :
  UI.dumpCovers u = true ->
  viewportInv u -> viewportInv (fst (UI.onUpdate u)).
Proof.
  intros C H. rewrite onUpdate_state.
  destruct (drawMemory_state u) as [E | (d & D & S & Wd & Ht & E)];
    rewrite E; [exact H|].
  unfold UI.dumpCovers in C. rewrite D in C.
  apply Z.ltb_ge in Wd, Ht. rewrite Wd, Ht in C. simpl in C.
  apply orb_true_iff in C. destruct C as [C | C].
  { apply Z.eqb_eq in C. lia. }
  apply Z.ltb_lt in C.
  destruct H as ((Hpos & Hzero) & HT).
  unfold viewportInv, UI.offsetInMemory. simpl.
  pose proof (memorySize_range d).
  assert (0 <= UI._memoryOffset u).
  { destruct (Z.eq_dec (UI._totalMemory u) 0) as [Z0 | NZ].
    - rewrite (Hzero Z0). lia.
    - assert (G : UI._totalMemory u > 0) by lia. specialize (Hpos G). lia. }
  repeat split; lia.
Qed.

Lemma viewportInv_exec1 (u : UI.IMPL) (i : UI.Input) :
  match i with UI.InTick => UI.dumpCovers u | _ => true end = true ->
  viewportInv u -> viewportInv (UI.exec1 u i).
Proof.
  intros C H. destruct i as [|late key| |w h|f|]; cbn [UI.exec1].
  - unfold UI.run. destruct (UI._running u); exact H.
  - apply viewportInv_onKeyPress, H.
  - apply viewportInv_onUpdate; assumption.
  - exact H.
  - exact H.
  - exact H.
Qed.

Lemma viewportInv_exec (inputs : list UI.Input) :
  forall u : UI.IMPL,
    UI.dumpsCover u inputs = true ->
    viewportInv u -> viewportInv (UI.exec inputs u).
Proof.
  induction inputs as [|i inputs IH]; intros u C H; simpl.
  - exact H.
  - simpl in C. apply andb_true_iff in C. destruct C as [C1 C2].
    apply IH; [exact C2|]. apply viewportInv_exec1; assumption.
Qed.

(** The total size is a [size_t] in every state of a controller. *)
Lemma scroll_total (n : Z) (u : UI.IMPL) :
  UI._totalMemory (UI._memoryScrollUp n u) = UI._totalMemory u /\
  UI._totalMemory (UI._memoryScrollDown n u) = UI._totalMemory u.
Proof.
  rewrite scrollUp_fields, scrollDown_fields. split; reflexivity.
Qed.

Lemma onKeyPress_total (late : list Monitor.Fetched) (key : Z) (u : UI.IMPL) :
  UI._totalMemory (fst (UI.onKeyPress late key u)) = UI._totalMemory u.
Proof.
  unfold UI.onKeyPress, UI._memoryPageUp, UI._memoryPageDown.
  repeat match goal with
         | |- context [if ?c then _ else _] => destruct c
         end;
    try reflexivity; apply scroll_total.
Qed.

Lemma exec1_total_range (u : UI.IMPL) (i : UI.Input) :
  0 <= UI._totalMemory u < SizeT.modulus ->
  0 <= UI._totalMemory (UI.exec1 u i) < SizeT.modulus.
Proof.
  intros H. destruct i as [|late key| |w h|f|]; cbn [UI.exec1];
    try exact H.
  - unfold UI.run. destruct (UI._running u); exact H.
  - rewrite onKeyPress_total. exact H.
  - rewrite onUpdate_state.
    destruct (drawMemory_state u) as [E | (d & _ & _ & _ & _ & E)];
      rewrite E; [exact H|].
    simpl. apply memorySize_range.
Qed.

Lemma reachable_total_range (u : UI.IMPL) :
  UI.reachable u -> 0 <= UI._totalMemory u < SizeT.modulus.
Proof.
  intros (vms & w & h & name & inputs & ->).
  assert (G : forall v, 0 <= UI._totalMemory v < SizeT.modulus ->
                        0 <= UI._totalMemory (UI.exec inputs v)
                        < SizeT.modulus).
  { induction inputs as [|i inputs IH]; intros v Hv; simpl.
    - exact Hv.
    - apply IH, exec1_total_range, Hv. }
  apply G. simpl. pose proof modulus_pos. lia.
Qed.

(** C3, as the source has it. The offset lies in [[0, totalMemory)] when
    the total is positive and is 0 when the total is 0, in every state
    reached by a run in which each redraw either leaves the total alone
    or takes it from a dump larger than the offset. In any state of a
    controller, line and page scrolling, the [g] key and every other key
    keep this with no condition; a redraw keeps it under that
    condition. *)
Theorem offset_stays_in_memory :
  (forall (vms : list string) (w h : Z) (name : string)
          (inputs : list UI.Input),
     UI.dumpsCover (UI.new vms w h name) inputs = true ->
     UI.offsetInMemory (UI.exec inputs (UI.new vms w h name))) /\
  (forall (u : UI.IMPL) (late : list Monitor.Fetched) (key : Z),
     UI.reachable u ->
     UI.offsetInMemory u ->
     UI.offsetInMemory (fst (UI.onKeyPress late key u))) /\
  (forall u : UI.IMPL,
     UI.reachable u ->
     UI.offsetInMemory u ->
     UI.dumpCovers u = true ->
     UI.offsetInMemory (fst (UI.onUpdate u))).
Proof.
  split; [|split].
  - intros vms w h name inputs C.
    apply (viewportInv_exec inputs _ C), viewportInv_new.
  - intros u late key R H.
    apply (viewportInv_onKeyPress late key u).
    split; [exact H | apply reachable_total_range, R].
  - intros u R H C.
    apply (viewportInv_onUpdate u C).
    split; [exact H | apply reachable_total_range, R].
Qed.

Lemma offset_stays_in_memory_witness :
  UI.dumpsCover (UI.new [] 200 40 "vm")
    [ UI.InRun;
      UI.InPoll (Monitor.FetchedDump (Some (UI.zeroDump 100)));
      UI.InTick;
      UI.InKey [] (UI.key_of "f");
      UI.InTick;
      UI.InKey [] (UI.key_of "a") ] = true /\
  UI.offsetInMemory
    (UI.exec
       [ UI.InRun;
         UI.InPoll (Monitor.FetchedDump (Some (UI.zeroDump 100)));
         UI.InTick;
         UI.InKey [] (UI.key_of "f");
         UI.InTick;
         UI.InKey [] (UI.key_of "a") ]
       (UI.new [] 200 40 "vm")).
Proof.
  split; [vm_compute; reflexivity|].
  apply (proj1 offset_stays_in_memory). vm_compute. reflexivity.
Defined.

(** C3 as stated fails: the redraw takes the total from the current dump
    and leaves the offset as it is. In this run the poller delivers a
    dump of 100 bytes, a redraw on a 200 by 40 terminal shows it with 44
    bytes per line, the [s] key moves the offset to 44, the poller
    delivers a dump of 20 bytes and the next redraw sets the total to 20:
    the offset 44 is then outside the memory. *)
Lemma offset_outside_memory_after_smaller_dump :
  UI.reachable (UI.exec UI.shrinkingDumpRun (UI.new [] 200 40 "vm")) /\
  UI._memoryOffset (UI.exec UI.shrinkingDumpRun (UI.new [] 200 40 "vm")) = 44 /\
  UI._totalMemory (UI.exec UI.shrinkingDumpRun (UI.new [] 200 40 "vm")) = 20 /\
  ~ UI.offsetInMemory (UI.exec UI.shrinkingDumpRun (UI.new [] 200 40 "vm")).
Proof.
  split; [|split; [|split]].
  - exists [], 200, 40, "vm"%string, UI.shrinkingDumpRun. reflexivity.
  - vm_compute. reflexivity.
  - vm_compute. reflexivity.
  - intros (Hpos & _).
    assert (E : UI._memoryOffset
                  (UI.exec UI.shrinkingDumpRun (UI.new [] 200 40 "vm")) = 44)
      by (vm_compute; reflexivity).
    assert (T : UI._totalMemory
                  (UI.exec UI.shrinkingDumpRun (UI.new [] 200 40 "vm")) = 20)
      by (vm_compute; reflexivity).
    rewrite E, T in Hpos. lia.
Qed.

(* ------------------------------------------------------------------ *)
(** * The redraw *)

(** C7, as the source has it. On a tick the memory panel does nothing on
    a terminal narrower than 30 or lower than 35: the stored bytes per
    line and line count stay as they were. On a larger terminal, if the
    dump is absent or empty only the frame of the panel is drawn, and the
    stored values again stay as they were. If the dump is present and not
    empty, the tick stores [bytesPerLine = (width-4)/4 - 5] and
    [lines = height-29], with the total taken from the dump and the
    offset left alone. *)
Theorem redraw_recomputes_geometry_when_it_draws_a_dump :
  forall u : UI.IMPL,
    (Screen.width (UI._screen u) < 30 \/ Screen.height (UI._screen u) < 35 ->
     fst (UI.onUpdate u) = u /\ snd (UI._drawMemory u) = []) /\
    (30 <= Screen.width (UI._screen u) ->
     35 <= Screen.height (UI._screen u) ->
     Monitor.dump (UI._monitor u) = None \/
     (exists d, Monitor.dump (UI._monitor u) = Some d /\
                VM.memorySize d = 0) ->
     fst (UI.onUpdate u) = u /\
     snd (UI._drawMemory u) =
       UI.memoryFrame (Screen.width (UI._screen u))
                      (Screen.height (UI._screen u))
       ++ UI.memoryFlush) /\
    (forall d : VM.CoreDump,
       30 <= Screen.width (UI._screen u) < SizeT.modulus ->
       35 <= Screen.height (UI._screen u) < SizeT.modulus ->
       Monitor.dump (UI._monitor u) = Some d ->
       VM.memorySize d > 0 ->
       UI._memoryBytesPerLine (fst (UI.onUpdate u)) =
         (Screen.width (UI._screen u) - 4) / 4 - 5 /\
       UI._memoryLines (fst (UI.onUpdate u)) =
         Screen.height (UI._screen u) - 29 /\
       UI._totalMemory (fst (UI.onUpdate u)) = VM.memorySize d /\
       UI._memoryOffset (fst (UI.onUpdate u)) = UI._memoryOffset u).
Proof.
  intros u. rewrite onUpdate_state. unfold UI._drawMemory.
  split; [|split].
  - intros Small.
    assert (G : ((Screen.width (UI._screen u) <? 30)
                 || (Screen.height (UI._screen u) <? 35)) = true).
    { apply orb_true_iff. destruct Small; [left | right];
        apply Z.ltb_lt; assumption. }
    rewrite G. split; reflexivity.
  - intros W H D.
    apply Z.ltb_ge in W, H. rewrite W, H. simpl.
    destruct D as [D | (d & D & S)]; rewrite D; [split; reflexivity|].
    rewrite S. split; reflexivity.
  - intros d W H D S.
    assert (W' : (Screen.width (UI._screen u) <? 30) = false)
      by (apply Z.ltb_ge; lia).
    assert (H' : (Screen.height (UI._screen u) <? 35) = false)
      by (apply Z.ltb_ge; lia).
    rewrite W', H', D. simpl.
    assert (S' : (VM.memorySize d >? 0) = true) by (apply Z.gtb_lt; lia).
    rewrite S'. simpl. unfold SizeT.sub.
    rewrite (wrap_small (Screen.width (UI._screen u) - 4)) by lia.
    assert (6 <= (Screen.width (UI._screen u) - 4) / 4
            <= Screen.width (UI._screen u) - 4).
    { split.
      - apply Z.div_le_lower_bound; lia.
      - apply Z.div_le_upper_bound; lia. }
    rewrite !wrap_small by lia. repeat split.
Qed.

Lemma redraw_recomputes_geometry_when_it_draws_a_dump_witness :
  UI._memoryBytesPerLine
    (fst (UI.onUpdate
            (UI.exec1 (UI.exec1 (UI.new [] 200 40 "vm") UI.InRun)
               (UI.InPoll (Monitor.FetchedDump (Some (UI.zeroDump 100)))))))
  = (200 - 4) / 4 - 5 /\
  UI._memoryLines
    (fst (UI.onUpdate
            (UI.exec1 (UI.exec1 (UI.new [] 200 40 "vm") UI.InRun)
               (UI.InPoll (Monitor.FetchedDump (Some (UI.zeroDump 100)))))))
  = 40 - 29 /\
  fst (UI.onUpdate (UI.new [] 20 30 "vm")) = UI.new [] 20 30 "vm" /\
  snd (UI._drawMemory (UI.new [] 200 40 "vm")) =
    UI.memoryFrame 200 40 ++ UI.memoryFlush.
Proof.
  pose proof (redraw_recomputes_geometry_when_it_draws_a_dump
                (UI.exec1 (UI.exec1 (UI.new [] 200 40 "vm") UI.InRun)
                   (UI.InPoll
                      (Monitor.FetchedDump (Some (UI.zeroDump 100))))))
    as (_ & _ & Drawn).
  assert (W : 30 <= 200 < SizeT.modulus) by (vm_compute; split; congruence).
  assert (H : 35 <= 40 < SizeT.modulus) by (vm_compute; split; congruence).
  assert (S : VM.memorySize (UI.zeroDump 100) > 0) by reflexivity.
  destruct (Drawn (UI.zeroDump 100) W H eq_refl S) as (P & L & _ & _).
  pose proof (redraw_recomputes_geometry_when_it_draws_a_dump
                (UI.new [] 20 30 "vm")) as (Small & _ & _).
  assert (N : 20 < 30 \/ 30 < 35) by (left; reflexivity).
  destruct (Small N) as (Same & _).
  pose proof (redraw_recomputes_geometry_when_it_draws_a_dump
                (UI.new [] 200 40 "vm")) as (_ & Frame & _).
  assert (W30 : 30 <= 200) by (vm_compute; congruence).
  assert (H35 : 35 <= 40) by (vm_compute; congruence).
  destruct (Frame W30 H35 (or_introl eq_refl)) as (_ & F).
  repeat split; assumption.
Defined.

(** C7 as stated fails: a tick that draws no dump recomputes nothing. A
    new controller on a 200 by 40 terminal has no dump yet; after a tick
    its bytes per line and line count are still 0, not
    [(200-4)/4 - 5 = 44] and [40 - 29 = 11]. *)
Lemma tick_without_dump_recomputes_nothing :
  Monitor.dump (UI._monitor (UI.new [] 200 40 "vm")) = None /\
  UI._memoryBytesPerLine (fst (UI.onUpdate (UI.new [] 200 40 "vm"))) = 0 /\
  UI._memoryBytesPerLine (fst (UI.onUpdate (UI.new [] 200 40 "vm")))
    <> (200 - 4) / 4 - 5 /\
  UI._memoryLines (fst (UI.onUpdate (UI.new [] 200 40 "vm"))) = 0 /\
  UI._memoryLines (fst (UI.onUpdate (UI.new [] 200 40 "vm"))) <> 40 - 29.
Proof.
  repeat split; vm_compute; congruence.
Qed.

(* ------------------------------------------------------------------ *)
(** * Which panels a tick draws *)

Lemma draws_app (p : UI.Panel) (a b : list UI.DrawOp) :
  UI.draws p (a ++ b) = UI.draws p a || UI.draws p b.
Proof. apply existsb_app. Qed.

Lemma draws_registerRows (p : UI.Panel) (regs : list (string * Z)) :
  forall y : Z, UI.draws p (UI.registerRows y regs) = false.
Proof.
  induction regs as [|[name value] regs IH]; intros y; simpl.
  - reflexivity.
  - apply IH.
Qed.

Lemma draws_stackRows (p : UI.Panel) (stack : list VM.StackEntry) :
  forall i y : Z, UI.draws p (UI.stackRows i y stack) = false.
Proof.
  induction stack as [|e stack IH]; intros i y; simpl.
  - reflexivity.
  - destruct (i =? 16); [reflexivity | apply IH].
Qed.

Lemma draws_hexRows (p : UI.Panel) (P : Z) (mem : list Z) :
  forall i y offset : Z, UI.draws p (UI.hexRows P i y offset mem) = false.
Proof.
  induction mem as [|b mem IH]; intros i y offset; simpl.
  - reflexivity.
  - destruct (i mod P =? 0); apply IH.
Qed.

Lemma draws_asciiRows (p : UI.Panel) (P : Z) (mem : list Z) :
  forall i y : Z, UI.draws p (UI.asciiRows P i y mem) = false.
Proof.
  induction mem as [|b mem IH]; intros i y; simpl.
  - reflexivity.
  - destruct (i mod P =? 0); apply IH.
Qed.

Lemma draws_drawTitle (p : UI.Panel) (u : UI.IMPL) :
  UI.draws p (UI._drawTitle u) = false.
Proof. reflexivity. Qed.

Lemma draws_drawRegisters (p : UI.Panel) (u : UI.IMPL) :
  UI.draws p (UI._drawRegisters u) =
  match p with
  | UI.Registers =>
      negb ((Screen.width (UI._screen u) <? 30)
            || (Screen.height (UI._screen u) <? 25))
  | _ => false
  end.
Proof.
  unfold UI._drawRegisters.
  destruct ((Screen.width (UI._screen u) <? 30)
            || (Screen.height (UI._screen u) <? 25)).
  - destruct p; reflexivity.
  - rewrite !draws_app.
    assert (R : UI.draws p
                  match Monitor.registers (UI._monitor u) with
                  | Some regs => UI.registerRows 3 (VM.all regs)
                  | None => []
                  end = false).
    { destruct (Monitor.registers (UI._monitor u));
        [apply draws_registerRows | reflexivity]. }
    rewrite R. destruct p; reflexivity.
Qed.

Lemma draws_drawStack (p : UI.Panel) (u : UI.IMPL) :
  UI.draws p (UI._drawStack u) =
  match p with
  | UI.Stack =>
      negb ((Screen.width (UI._screen u) <? 190)
            || (Screen.height (UI._screen u) <? 25))
  | _ => false
  end.
Proof.
  unfold UI._drawStack.
  destruct ((Screen.width (UI._screen u) <? 190)
            || (Screen.height (UI._screen u) <? 25)).
  - destruct p; reflexivity.
  - rewrite !draws_app, draws_stackRows. destruct p; reflexivity.
Qed.

Lemma draws_drawMemory (p : UI.Panel) (u : UI.IMPL) :
  UI.draws p (snd (UI._drawMemory u)) =
  match p with
  | UI.Memory =>
      negb ((Screen.width (UI._screen u) <? 30)
            || (Screen.height (UI._screen u) <? 35))
  | _ => false
  end.
Proof.
  unfold UI._drawMemory.
  destruct ((Screen.width (UI._screen u) <? 30)
            || (Screen.height (UI._screen u) <? 35)).
  - destruct p; reflexivity.
  - destruct (Monitor.dump (UI._monitor u)) as [d|];
      [destruct (VM.memorySize d >? 0)|]; cbn [snd];
      rewrite ?draws_app, ?draws_hexRows, ?draws_asciiRows;
      destruct p; reflexivity.
Qed.

Lemma gate_open (a b w h : Z) :
  negb ((w <? a) || (h <? b)) = true <-> a <= w /\ b <= h.
Proof.
  rewrite negb_true_iff, orb_false_iff, !Z.ltb_ge. reflexivity.
Qed.

(** C9. On a tick each panel opens its window exactly when the terminal
    is large enough for it: registers from 30 by 25, stack from 190 by
    25, memory from 30 by 35, each whatever the others do. At 20 by 30
    the tick draws the title and nothing else; at 200 by 40 it draws the
    registers, stack and memory panels. *)
Theorem panels_gated_on_terminal_size :
  (forall u : UI.IMPL,
     (UI.draws UI.Registers (snd (UI.onUpdate u)) = true <->
      30 <= Screen.width (UI._screen u) /\
      25 <= Screen.height (UI._screen u)) /\
     (UI.draws UI.Stack (snd (UI.onUpdate u)) = true <->
      190 <= Screen.width (UI._screen u) /\
      25 <= Screen.height (UI._screen u)) /\
     (UI.draws UI.Memory (snd (UI.onUpdate u)) = true <->
      30 <= Screen.width (UI._screen u) /\
      35 <= Screen.height (UI._screen u))) /\
  (forall u : UI.IMPL,
     snd (UI.onUpdate (UI.exec1 u (UI.InResize 20 30))) =
     UI._drawTitle (UI.exec1 u (UI.InResize 20 30))) /\
  (forall u : UI.IMPL,
     UI.draws UI.Registers
       (snd (UI.onUpdate (UI.exec1 u (UI.InResize 200 40)))) = true /\
     UI.draws UI.Stack
       (snd (UI.onUpdate (UI.exec1 u (UI.InResize 200 40)))) = true /\
     UI.draws UI.Memory
       (snd (UI.onUpdate (UI.exec1 u (UI.InResize 200 40)))) = true).
Proof.
  assert (G : forall (p : UI.Panel) (u : UI.IMPL),
             UI.draws p (snd (UI.onUpdate u)) =
             UI.draws p (UI._drawRegisters u)
             || UI.draws p (UI._drawStack u)
             || UI.draws p (snd (UI._drawMemory u))).
  { intros p u. rewrite onUpdate_ops, !draws_app, draws_drawTitle.
    simpl. apply orb_assoc. }
  split; [|split].
  - intros u. rewrite !G.
    rewrite !draws_drawRegisters, !draws_drawStack, !draws_drawMemory.
    rewrite !orb_false_r. simpl. rewrite !gate_open. repeat split; tauto.
  - intros u. rewrite onUpdate_ops. reflexivity.
  - intros u. rewrite !G.
    rewrite !draws_drawRegisters, !draws_drawStack, !draws_drawMemory.
    repeat split.
Qed.

(* ------------------------------------------------------------------ *)
(** * The key callback *)

Lemma onKeyPress_other (late : list Monitor.Fetched) (key : Z) (u : UI.IMPL) :
  ~ In key (map UI.key_of ["q"; "a"; "s"; "d"; "f"; "g"]%char) ->
  UI.onKeyPress late key u = (u, []).
Proof.
  intros N. unfold UI.onKeyPress.
  repeat match goal with
         | |- context [key =? ?k] =>
             destruct (Z.eqb_spec key k) as [E | _];
             [exfalso; apply N; rewrite E; simpl; tauto|]
         end.
  reflexivity.
Qed.

(** C8. The key callback, one key at a time: [q] stops the monitor and
    then the screen, which leaves the monitor not running with no handle
    and the screen loop asked to end; [a] and [s] scroll the viewport up
    and down by one line; [d] and [f] scroll it up and down by the
    stored line count; [g] sets the offset to 0; any other key changes
    nothing and calls nothing. *)
Theorem key_dispatch :
  forall (late : list Monitor.Fetched) (u : UI.IMPL),
    (UI.onKeyPress late (UI.key_of "q") u =
       (UI.set_screen (Screen.stop (UI._screen u))
          (UI.set_monitor (Monitor.stop late (UI._monitor u)) u),
        [UI.MonitorStop; UI.ScreenStop]) /\
     Monitor._running
       (UI._monitor (fst (UI.onKeyPress late (UI.key_of "q") u))) = false /\
     Monitor._threads
       (UI._monitor (fst (UI.onKeyPress late (UI.key_of "q") u))) = [] /\
     Screen.running
       (UI._screen (fst (UI.onKeyPress late (UI.key_of "q") u))) = false) /\
    UI.onKeyPress late (UI.key_of "a") u = (UI._memoryScrollUp 1 u, []) /\
    UI.onKeyPress late (UI.key_of "s") u = (UI._memoryScrollDown 1 u, []) /\
    UI.onKeyPress late (UI.key_of "d") u =
      (UI._memoryScrollUp (UI._memoryLines u) u, []) /\
    UI.onKeyPress late (UI.key_of "f") u =
      (UI._memoryScrollDown (UI._memoryLines u) u, []) /\
    UI.onKeyPress late (UI.key_of "g") u = (UI.set_memoryOffset 0 u, []) /\
    (forall key : Z,
       ~ In key (map UI.key_of ["q"; "a"; "s"; "d"; "f"; "g"]%char) ->
       UI.onKeyPress late key u = (u, [])).
Proof.
  intros late u.
  split; [|split; [|split; [|split; [|split; [|split]]]];
             try reflexivity; intros key; apply onKeyPress_other].
  split; [reflexivity|].
  change (fst (UI.onKeyPress late (UI.key_of "q") u))
    with (UI.set_screen (Screen.stop (UI._screen u))
            (UI.set_monitor (Monitor.stop late (UI._monitor u)) u)).
  cbn [UI._monitor UI._screen UI.set_screen UI.set_monitor Screen.running
       Screen.stop].
  destruct (stop_flags late (UI._monitor u)) as (R & _ & T).
  repeat split; assumption.
Qed.

Lemma key_dispatch_witness :
  UI.onKeyPress [] (UI.key_of "x") (UI.new [] 200 40 "vm") =
  (UI.new [] 200 40 "vm", []).
Proof.
  apply (key_dispatch [] (UI.new [] 200 40 "vm")).
  vm_compute. intuition congruence.
Defined.

(* ------------------------------------------------------------------ *)
(** * Before the first dump *)

(** In every state of a controller the offset is a [size_t], and while
    the total is still 0 so are the offset, the bytes per line and the
    line count. *)
Definition undrawnInv (u : UI.IMPL) : Prop :=
  0 <= UI._memoryOffset u < SizeT.modulus /\
  (UI._totalMemory u = 0 ->
   UI._memoryOffset u = 0 /\
   UI._memoryBytesPerLine u = 0 /\
   UI._memoryLines u = 0).

Lemma undrawnInv_offset (u : UI.IMPL) (o : Z) :
  0 <= o < SizeT.modulus ->
  (UI._totalMemory u = 0 -> o = 0) ->
  undrawnInv u -> undrawnInv (UI.set_memoryOffset o u).
Proof.
  unfold undrawnInv. simpl. intros Ho Hz (_ & H).
  split; [exact Ho|]. intros T. destruct (H T) as (_ & P & L). auto.
Qed.

Lemma undrawnInv_scrollUp (n : Z) (u : UI.IMPL) :
  undrawnInv u -> undrawnInv (UI._memoryScrollUp n u).
Proof.
  intros H. pose proof modulus_pos. unfold UI._memoryScrollUp.
  destruct (UI._memoryOffset u >? _) eqn:E.
  - apply Z.gtb_lt in E.
    pose proof (wrap_range (UI._memoryBytesPerLine u * n)) as Hk.
    fold (SizeT.mul (UI._memoryBytesPerLine u) n) in Hk.
    apply undrawnInv_offset; [apply wrap_range | | exact H].
    intros T. destruct H as (_ & H). destruct (H T) as (O & _). lia.
  - apply undrawnInv_offset; [lia | reflexivity | exact H].
Qed.

Lemma undrawnInv_scrollDown (n : Z) (u : UI.IMPL) :
  undrawnInv u -> undrawnInv (UI._memoryScrollDown n u).
Proof.
  intros H. unfold UI._memoryScrollDown.
  destruct (_ <? UI._totalMemory u) eqn:E; [|exact H].
  apply Z.ltb_lt in E.
  pose proof (wrap_range
                (UI._memoryOffset u
                 + SizeT.mul (UI._memoryBytesPerLine u) n)) as Hw.
  fold (SizeT.add (UI._memoryOffset u)
                  (SizeT.mul (UI._memoryBytesPerLine u) n)) in Hw.
  apply undrawnInv_offset; [exact Hw | | exact H].
  intros T. lia.
Qed.

Lemma undrawnInv_exec1 (u : UI.IMPL) (i : UI.Input) :
  undrawnInv u -> undrawnInv (UI.exec1 u i).
Proof.
  intros H. destruct i as [|late key| |w h|f|]; cbn [UI.exec1];
    try exact H.
  - unfold UI.run. destruct (UI._running u); exact H.
  - unfold UI.onKeyPress, UI._memoryPageUp, UI._memoryPageDown.
    repeat match goal with
           | |- context [if ?c then _ else _] => destruct c
           end;
      cbn [fst];
      try exact H;
      try (apply undrawnInv_scrollUp; exact H);
      try (apply undrawnInv_scrollDown; exact H).
    pose proof modulus_pos.
    apply undrawnInv_offset; [lia | reflexivity | exact H].
  - rewrite onUpdate_state.
    destruct (drawMemory_state u) as [E | (d & _ & S & _ & _ & E)];
      rewrite E; [exact H|].
    destruct H as (Ho & _). split; [exact Ho|].
    simpl. intros T. lia.
Qed.

Lemma reachable_undrawnInv (u : UI.IMPL) :
  UI.reachable u -> undrawnInv u.
Proof.
  intros (vms & w & h & name & inputs & ->).
  assert (G : forall v, undrawnInv v -> undrawnInv (UI.exec inputs v)).
  { induction inputs as [|i inputs IH]; intros v Hv; simpl.
    - exact Hv.
    - apply IH, undrawnInv_exec1, Hv. }
  apply G. unfold undrawnInv. simpl. pose proof modulus_pos.
  repeat split; lia.
Qed.

(** C10. Take a controller whose stored bytes per line, line count and
    total size are still 0. Its offset is 0, every scroll distance is 0,
    and the keys [a], [s], [d] and [f] leave the offset, and the whole
    controller, as they are. *)
Theorem scroll_keys_do_nothing_before_first_dump :
  forall (u : UI.IMPL) (late : list Monitor.Fetched) (key : Z),
    UI.reachable u ->
    UI._memoryBytesPerLine u = 0 ->
    UI._memoryLines u = 0 ->
    UI._totalMemory u = 0 ->
    In key (map UI.key_of ["a"; "s"; "d"; "f"]%char) ->
    UI._memoryOffset u = 0 /\
    (forall n : Z, SizeT.mul (UI._memoryBytesPerLine u) n = 0) /\
    UI._memoryOffset (fst (UI.onKeyPress late key u)) = UI._memoryOffset u /\
    UI.onKeyPress late key u = (u, []).
Proof.
  intros u late key R P L T K.
  destruct (reachable_undrawnInv u R) as (_ & H).
  destruct (H T) as (O & _ & _).
  assert (M : forall n : Z, SizeT.mul (UI._memoryBytesPerLine u) n = 0).
  { intros n. rewrite P. reflexivity. }
  assert (Up : forall n, UI._memoryScrollUp n u = u).
  { intros n. unfold UI._memoryScrollUp. rewrite M, O. simpl.
    rewrite <- O. apply set_memoryOffset_same. }
  assert (Down : forall n, UI._memoryScrollDown n u = u).
  { intros n. unfold UI._memoryScrollDown. rewrite M, O, T. reflexivity. }
  assert (E : UI.onKeyPress late key u = (u, [])).
  { simpl in K.
    destruct K as [K | [K | [K | [K | []]]]]; subst key;
      unfold UI.onKeyPress, UI._memoryPageUp, UI._memoryPageDown; simpl;
      rewrite ?Up, ?Down; reflexivity. }
  rewrite E. repeat split; assumption.
Qed.

Lemma scroll_keys_do_nothing_before_first_dump_witness :
  UI.onKeyPress [] (UI.key_of "f")
    (UI.exec1 (UI.exec1 (UI.new [] 200 40 "vm") UI.InRun) UI.InTick) =
  (UI.exec1 (UI.exec1 (UI.new [] 200 40 "vm") UI.InRun) UI.InTick, []).
Proof.
  apply (scroll_keys_do_nothing_before_first_dump
           (UI.exec1 (UI.exec1 (UI.new [] 200 40 "vm") UI.InRun) UI.InTick)
           [] (UI.key_of "f")).
  - exists [], 200, 40, "vm"%string, [UI.InRun; UI.InTick]. reflexivity.
  - reflexivity.
  - reflexivity.
  - reflexivity.
  - simpl. tauto.
Defined.

(* ------------------------------------------------------------------ *)
(** * [run] and the running flag of the controller *)

(** [run] leaves the flag it tests as it found it. *)
Lemma run_keeps_running_flag (u : UI.IMPL) :
  UI._running (fst (UI.run u)) = UI._running u.
Proof.
  unfold UI.run. destruct (UI._running u) eqn:R; [exact R | exact R].
Qed.

Lemma onKeyPress_running_flag (late : list Monitor.Fetched) (key : Z)
      (u : UI.IMPL) :
  UI._running (fst (UI.onKeyPress late key u)) = UI._running u.
Proof.
  unfold UI.onKeyPress, UI._memoryPageUp, UI._memoryPageDown.
  repeat match goal with
         | |- context [if ?c then _ else _] => destruct c
         end;
    first [ reflexivity
          | rewrite scrollUp_fields; reflexivity
          | rewrite scrollDown_fields; reflexivity ].
Qed.

Lemma exec1_not_running (u : UI.IMPL) (i : UI.Input) :
  UI._running u = false -> UI._running (UI.exec1 u i) = false.
Proof.
  intros H. destruct i as [|late key| |w h|f|]; cbn [UI.exec1];
    try exact H.
  - rewrite run_keeps_running_flag. exact H.
  - rewrite onKeyPress_running_flag. exact H.
  - rewrite onUpdate_state.
    destruct (drawMemory_state u) as [E | (d & _ & _ & _ & _ & E)];
      rewrite E; exact H.
  - reflexivity.
Qed.

(** No state of a controller has the flag set: the guard of [run] never
    fires. *)
Lemma reachable_not_running (u : UI.IMPL) :
  UI.reachable u -> UI._running u = false.
Proof.
  intros (vms & w & h & name & inputs & ->).
  assert (G : forall v, UI._running v = false ->
                        UI._running (UI.exec inputs v) = false).
  { induction inputs as [|i inputs IH]; intros v Hv; simpl.
    - exact Hv.
    - apply IH, exec1_not_running, Hv. }
  apply G. reflexivity.
Qed.

Lemma run_on_reachable (u : UI.IMPL) :
  UI.reachable u ->
  snd (UI.run u) = [UI.MonitorStart; UI.ScreenStart].
Proof.
  intros R. unfold UI.run. rewrite (reachable_not_running u R). reflexivity.
Qed.

(** C6 on the source: after [run] on a new controller the monitor is
    running with its four threads and the screen loop is entered, but
    the flag [run] tests is still false, and a second [run] starts the
    monitor and the screen again instead of returning at once. *)
Theorem run_again_starts_again :
  Monitor._running
    (UI._monitor (fst (UI.run (UI.new [] 200 40 "vm")))) = true /\
  Screen.running
    (UI._screen (fst (UI.run (UI.new [] 200 40 "vm")))) = true /\
  UI._running (fst (UI.run (UI.new [] 200 40 "vm"))) = false /\
  snd (UI.run (fst (UI.run (UI.new [] 200 40 "vm")))) =
    [UI.MonitorStart; UI.ScreenStart] /\
  snd (UI.run (fst (UI.run (UI.new [] 200 40 "vm")))) <> [].
Proof.
  repeat split. discriminate.
Qed.

(* ------------------------------------------------------------------ *)
(** * More on the snapshot store *)

Lemma isRunningVM_fold (vmName : string) (vms : list string) :
  forall acc : bool,
    fold_left
      (fun live name => if String.eqb name vmName then true else live)
      vms acc
    = acc || existsb (fun name => String.eqb name vmName) vms.
Proof.
  induction vms as [|v vms IH]; intros acc; simpl.
  - rewrite orb_false_r. reflexivity.
  - rewrite IH. destruct (String.eqb v vmName), acc; reflexivity.
Qed.

Lemma isRunningVM_In (vms : list string) (vmName : string) :
  Monitor.isRunningVM vms vmName = true <-> In vmName vms.
Proof.
  unfold Monitor.isRunningVM. rewrite isRunningVM_fold. simpl.
  rewrite existsb_exists. split.
  - intros (v & I & E). apply String.eqb_eq in E. subst v. exact I.
  - intros I. exists vmName. split; [exact I | apply String.eqb_refl].
Qed.

(** X1. A store is constructed live exactly when its machine is among the
    running ones, wherever and however often it is listed; a stored
    liveness poll says the same of the list it fetched. *)
Theorem liveness_is_membership :
  forall (vms : list string) (vmName : string) (m : Monitor.IMPL),
    (Monitor.live (Monitor.new vms vmName) = true <-> In vmName vms) /\
    (Monitor.live (Monitor.store (Monitor.FetchedRunningVMs vms) m) = true
     <-> In (Monitor._vmName m) vms).
Proof.
  intros vms vmName m. split; apply isRunningVM_In.
Qed.

Lemma store_vmName (f : Monitor.Fetched) (m : Monitor.IMPL) :
  Monitor._vmName (Monitor.store f m) = Monitor._vmName m.
Proof. destruct f; reflexivity. Qed.

Lemma join_vmName (late : list Monitor.Fetched) :
  forall (threads : list Monitor.Task) (m : Monitor.IMPL),
    Monitor._vmName (Monitor.join threads late m) = Monitor._vmName m.
Proof.
  induction late as [|f late IH]; intros threads m; simpl.
  - reflexivity.
  - destruct (Monitor.holds threads (Monitor.task_of f)).
    + rewrite IH. apply store_vmName.
    + apply IH.
Qed.

Lemma exec1_vmName (m : Monitor.IMPL) (e : Monitor.Event) :
  Monitor._vmName (Monitor.exec1 m e) = Monitor._vmName m.
Proof.
  destruct e as [|late|f]; cbn [Monitor.exec1].
  - unfold Monitor.start. destruct (Monitor._running m); reflexivity.
  - unfold Monitor.stop, Monitor.stop_begin. simpl.
    rewrite join_vmName. reflexivity.
  - destruct (Monitor.holds _ _); [apply store_vmName | reflexivity].
Qed.

(** X2. The machine a store watches never changes: not by [start], not by
    [stop], not by anything a polling thread stores, and a copy watches
    the machine of its source. *)
Theorem vmName_is_fixed :
  forall (evs : list Monitor.Event) (m : Monitor.IMPL),
    Monitor._vmName (Monitor.exec evs m) = Monitor._vmName m /\
    Monitor._vmName (Monitor.copy (Monitor.exec evs m)) = Monitor._vmName m.
Proof.
  assert (G : forall evs m,
             Monitor._vmName (Monitor.exec evs m) = Monitor._vmName m).
  { induction evs as [|e evs IH]; intros m; simpl.
    - reflexivity.
    - unfold Monitor.exec in IH. rewrite IH. apply exec1_vmName. }
  intros evs m. split; [apply G | simpl; apply G].
Qed.

(** ** The polling loops *)

Lemma last_cons {A : Type} (l : list A) :
  forall a d : A, last (a :: l) d = last l a.
Proof.
  induction l as [|b l IH]; intros a d.
  - reflexivity.
  - change (last (a :: b :: l) d) with (last (b :: l) d).
    rewrite !IH. reflexivity.
Qed.

Lemma updateRegisters_runs (fetched : list (option VM.Registers)) :
  forall (m : Monitor.IMPL) (regs : option VM.Registers),
    Monitor._stop m = false ->
    Monitor._updateRegisters (regs :: fetched) m =
    Monitor.set_registers (last fetched regs) m.
Proof.
  induction fetched as [|r fetched IH]; intros m regs S.
  - simpl. rewrite S. reflexivity.
  - change (Monitor._updateRegisters (regs :: r :: fetched) m)
      with (if Monitor._stop m then m
            else Monitor._updateRegisters (r :: fetched)
                   (Monitor.store (Monitor.FetchedRegisters regs) m)).
    rewrite S, IH by exact S.
    rewrite last_cons. reflexivity.
Qed.

Lemma updateStack_runs (fetched : list (list VM.StackEntry)) :
  forall (m : Monitor.IMPL) (stack : list VM.StackEntry),
    Monitor._stop m = false ->
    Monitor._updateStack (stack :: fetched) m =
    Monitor.set_stack (last fetched stack) m.
Proof.
  induction fetched as [|r fetched IH]; intros m stack S.
  - simpl. rewrite S. reflexivity.
  - change (Monitor._updateStack (stack :: r :: fetched) m)
      with (if Monitor._stop m then m
            else Monitor._updateStack (r :: fetched)
                   (Monitor.store (Monitor.FetchedStack stack) m)).
    rewrite S, IH by exact S.
    rewrite last_cons. reflexivity.
Qed.

Lemma updateMemory_runs (fetched : list (option VM.CoreDump)) :
  forall (m : Monitor.IMPL) (dump : option VM.CoreDump),
    Monitor._stop m = false ->
    Monitor._updateMemory (dump :: fetched) m =
    Monitor.set_dump (last fetched dump) m.
Proof.
  induction fetched as [|r fetched IH]; intros m dump S.
  - simpl. rewrite S. reflexivity.
  - change (Monitor._updateMemory (dump :: r :: fetched) m)
      with (if Monitor._stop m then m
            else Monitor._updateMemory (r :: fetched)
                   (Monitor.store (Monitor.FetchedDump dump) m)).
    rewrite S, IH by exact S.
    rewrite last_cons. reflexivity.
Qed.

Lemma updateLiveStatus_runs (fetched : list (list string)) :
  forall (m : Monitor.IMPL) (vms : list string),
    Monitor._stop m = false ->
    Monitor._updateLiveStatus (vms :: fetched) m =
    Monitor.set_live
      (Monitor.isRunningVM (last fetched vms) (Monitor._vmName m)) m.
Proof.
  induction fetched as [|r fetched IH]; intros m vms S.
  - simpl. rewrite S. reflexivity.
  - change (Monitor._updateLiveStatus (vms :: r :: fetched) m)
      with (if Monitor._stop m then m
            else Monitor._updateLiveStatus (r :: fetched)
                   (Monitor.store (Monitor.FetchedRunningVMs vms) m)).
    rewrite S, IH by exact S.
    rewrite last_cons. reflexivity.
Qed.

(** X3. A polling loop that finds the stop flag set returns at once and
    stores nothing, whatever it could have fetched. *)
Theorem pollers_return_on_stop_flag :
  forall (m : Monitor.IMPL),
    Monitor._stop m = true ->
    (forall fetched, Monitor._updateRegisters fetched m = m) /\
    (forall fetched, Monitor._updateStack fetched m = m) /\
    (forall fetched, Monitor._updateMemory fetched m = m) /\
    (forall fetched, Monitor._updateLiveStatus fetched m = m).
Proof.
  intros m S.
  repeat split; intros [|x fetched]; simpl; rewrite ?S; reflexivity.
Qed.

Lemma pollers_return_on_stop_flag_witness :
  Monitor._updateRegisters [Some [("eax"%string, 1)]]
    (Monitor.stop [] (Monitor.start (Monitor.new [] "vm"))) =
  Monitor.stop [] (Monitor.start (Monitor.new [] "vm")).
Proof.
  apply (pollers_return_on_stop_flag
           (Monitor.stop [] (Monitor.start (Monitor.new [] "vm")))).
  reflexivity.
Defined.

(** X4. A polling loop that runs with the stop flag down ends with the value
    it fetched last in its own field, replaced whole, and with every
    other field of the store as it found it; the liveness loop ends live
    exactly when the machine is in the list it fetched last. *)
Theorem pollers_keep_the_latest :
  forall (m : Monitor.IMPL),
    Monitor._stop m = false ->
    (forall regs fetched,
       Monitor._updateRegisters (regs :: fetched) m =
       Monitor.set_registers (last fetched regs) m) /\
    (forall stack fetched,
       Monitor._updateStack (stack :: fetched) m =
       Monitor.set_stack (last fetched stack) m) /\
    (forall dump fetched,
       Monitor._updateMemory (dump :: fetched) m =
       Monitor.set_dump (last fetched dump) m) /\
    (forall vms fetched,
       (exists live,
          Monitor._updateLiveStatus (vms :: fetched) m =
          Monitor.set_live live m /\
          (live = true <-> In (Monitor._vmName m) (last fetched vms)))).
Proof.
  intros m S. split; [|split; [|split]].
  - intros regs fetched. apply updateRegisters_runs, S.
  - intros stack fetched. apply updateStack_runs, S.
  - intros dump fetched. apply updateMemory_runs, S.
  - intros vms fetched.
    exists (Monitor.isRunningVM (last fetched vms) (Monitor._vmName m)).
    split; [apply updateLiveStatus_runs, S | apply isRunningVM_In].
Qed.

Lemma pollers_keep_the_latest_witness :
  Monitor.registers
    (Monitor._updateRegisters
       [None; Some [("eax"%string, 1)]; Some [("ebx"%string, 255)]]
       (Monitor.start (Monitor.new [] "vm"))) =
  Some [("ebx"%string, 255)].
Proof.
  destruct (pollers_keep_the_latest (Monitor.start (Monitor.new [] "vm"))
              eq_refl) as (R & _).
  rewrite R. reflexivity.
Defined.

(** ** Between [stop] and the next [start] *)




(* ------------------------------------------------------------------ *)
(** * More on the controller *)

Lemma onKeyPress_fields (late : list Monitor.Fetched) (key : Z)
      (u : UI.IMPL) :
  UI._vmName (fst (UI.onKeyPress late key u)) = UI._vmName u /\
  (UI._monitor (fst (UI.onKeyPress late key u)) = UI._monitor u \/
   UI._monitor (fst (UI.onKeyPress late key u)) =
   Monitor.stop late (UI._monitor u)).
Proof.
  unfold UI.onKeyPress, UI._memoryPageUp, UI._memoryPageDown.
  repeat match goal with
         | |- context [if ?c then _ else _] => destruct c
         end;
    first [ split; [reflexivity | right; reflexivity]
          | split; [reflexivity | left; reflexivity]
          | rewrite scrollUp_fields; split; [reflexivity | left; reflexivity]
          | rewrite scrollDown_fields;
            split; [reflexivity | left; reflexivity] ].
Qed.

Lemma drawMemory_fields (u : UI.IMPL) :
  UI._running (fst (UI._drawMemory u)) = UI._running u /\
  UI._vmName (fst (UI._drawMemory u)) = UI._vmName u /\
  UI._screen (fst (UI._drawMemory u)) = UI._screen u /\
  UI._monitor (fst (UI._drawMemory u)) = UI._monitor u /\
  UI._memoryOffset (fst (UI._drawMemory u)) = UI._memoryOffset u.
Proof.
  destruct (drawMemory_state u) as [E | (d & _ & _ & _ & _ & E)];
    rewrite E; repeat split.
Qed.

(** X6. A render tick reads and never writes: the monitor, the screen, the
    machine name, the running flag and the viewport offset come out of a
    tick as they went in, whatever is drawn. *)
Theorem tick_only_refreshes_geometry :
  forall u : UI.IMPL,
    UI._monitor (fst (UI.onUpdate u)) = UI._monitor u /\
    UI._screen (fst (UI.onUpdate u)) = UI._screen u /\
    UI._vmName (fst (UI.onUpdate u)) = UI._vmName u /\
    UI._running (fst (UI.onUpdate u)) = UI._running u /\
    UI._memoryOffset (fst (UI.onUpdate u)) = UI._memoryOffset u.
Proof.
  intros u. rewrite onUpdate_state.
  destruct (drawMemory_fields u) as (R & N & S & M & O).
  repeat split; assumption.
Qed.

Lemma controllerInv_exec1 (u : UI.IMPL) (i : UI.Input) :
  UI.controllerInv u -> UI.controllerInv (UI.exec1 u i).
Proof.
  intros (N & L). destruct i as [|late key| |w h|f|]; cbn [UI.exec1].
  - unfold UI.run. destruct (UI._running u); [split; assumption|].
    split; simpl.
    + rewrite N. symmetry.
      apply (exec1_vmName (UI._monitor u) Monitor.Start).
    + apply (exec1_between (UI._monitor u) Monitor.Start), L.
  - destruct (onKeyPress_fields late key u) as (Nk & [Mk | Mk]);
      unfold UI.controllerInv; rewrite Nk, Mk.
    + split; assumption.
    + split.
      * rewrite N. symmetry.
        apply (exec1_vmName (UI._monitor u) (Monitor.Stop late)).
      * left. apply stop_stopped.
  - destruct (tick_only_refreshes_geometry u) as (M & _ & Nm & _).
    unfold UI.controllerInv. rewrite M, Nm. split; assumption.
  - split; assumption.
  - split; simpl.
    + rewrite N. symmetry.
      apply (exec1_vmName (UI._monitor u) (Monitor.Store f)).
    + apply (exec1_between (UI._monitor u) (Monitor.Store f)), L.
  - split; simpl; [exact N | left; split; reflexivity].
Qed.

(** X7. In every state of a controller, its monitor watches the machine the
    controller is named after, and is either stopped with no polling
    thread or running with exactly the four: no sequence of [run], keys,
    ticks, resizes, polls and copies makes threads pile up. *)
Theorem controller_monitor_consistent :
  forall u : UI.IMPL,
    UI.reachable u ->
    UI._vmName u = Monitor._vmName (UI._monitor u) /\
    (Monitor.stopped (UI._monitor u) \/ Monitor.started (UI._monitor u)) /\
    (List.length (Monitor._threads (UI._monitor u)) <= 4)%nat.
Proof.
  intros u (vms & w & h & name & inputs & ->).
  assert (G : forall v, UI.controllerInv v ->
                        UI.controllerInv (UI.exec inputs v)).
  { induction inputs as [|i inputs IH]; intros v Hv; simpl.
    - exact Hv.
    - apply IH, controllerInv_exec1, Hv. }
  destruct (G (UI.new vms w h name)) as (N & L).
  { split; [reflexivity | left; split; reflexivity]. }
  split; [exact N | split; [exact L|]].
  destruct L as [(_ & T) | (_ & _ & T)]; rewrite T; simpl; lia.
Qed.

Lemma controller_monitor_consistent_witness :
  (List.length
     (Monitor._threads
        (UI._monitor
           (UI.exec [UI.InRun; UI.InKey [] (UI.key_of "q"); UI.InRun;
                     UI.InCopy; UI.InRun; UI.InRun]
                    (UI.new [] 200 40 "vm")))) <= 4)%nat.
Proof.
  apply (controller_monitor_consistent
           (UI.exec [UI.InRun; UI.InKey [] (UI.key_of "q"); UI.InRun;
                     UI.InCopy; UI.InRun; UI.InRun]
                    (UI.new [] 200 40 "vm"))).
  exists [], 200, 40, "vm"%string,
    [UI.InRun; UI.InKey [] (UI.key_of "q"); UI.InRun;
     UI.InCopy; UI.InRun; UI.InRun].
  reflexivity.
Defined.

(** ** Scrolling back and forth *)

(** X8. Scrolling down and then up by the same number of lines gives back
    the controller it started from whenever the scroll down moved (its
    target was inside the memory); scrolling up and then down does so
    whenever the scroll up was not clamped and the offset was inside the
    memory. The page keys are the case [n = _memoryLines]. *)
Theorem scroll_round_trip :
  forall (u : UI.IMPL) (n : Z),
    0 <= UI._memoryOffset u ->
    0 <= UI._memoryBytesPerLine u * n ->
    UI._memoryOffset u + UI._memoryBytesPerLine u * n < SizeT.modulus ->
    (UI._memoryOffset u + UI._memoryBytesPerLine u * n < UI._totalMemory u ->
     UI._memoryScrollUp n (UI._memoryScrollDown n u) = u) /\
    (UI._memoryBytesPerLine u * n <= UI._memoryOffset u ->
     UI._memoryOffset u < UI._totalMemory u ->
     UI._memoryScrollDown n (UI._memoryScrollUp n u) = u).
Proof.
  intros u n Ho Hk Hs. split.
  - intros Hin.
    assert (D : UI._memoryScrollDown n u =
                UI.set_memoryOffset
                  (UI._memoryOffset u + UI._memoryBytesPerLine u * n) u).
    { rewrite scrollDown_fields, scrollDown_exact by lia.
      apply Z.ltb_lt in Hin. rewrite Hin. reflexivity. }
    rewrite D, scrollUp_fields, scrollUp_exact by (simpl; lia).
    simpl. rewrite Z.max_r by lia.
    replace (UI._memoryOffset u + UI._memoryBytesPerLine u * n
             - UI._memoryBytesPerLine u * n)
      with (UI._memoryOffset u) by lia.
    destruct u; reflexivity.
  - intros Hge Hin.
    assert (U : UI._memoryScrollUp n u =
                UI.set_memoryOffset
                  (UI._memoryOffset u - UI._memoryBytesPerLine u * n) u).
    { rewrite scrollUp_fields, scrollUp_exact by lia.
      rewrite Z.max_r by lia. reflexivity. }
    rewrite U, scrollDown_fields, scrollDown_exact by (simpl; lia).
    simpl.
    replace (UI._memoryOffset u - UI._memoryBytesPerLine u * n
             + UI._memoryBytesPerLine u * n)
      with (UI._memoryOffset u) by lia.
    apply Z.ltb_lt in Hin. rewrite Hin.
    destruct u; reflexivity.
Qed.

Lemma scroll_round_trip_witness :
  UI._memoryScrollUp 11
    (UI._memoryScrollDown 11
       (UI.withViewport 0 44 11 4096 (UI.new [] 200 40 "vm"))) =
  UI.withViewport 0 44 11 4096 (UI.new [] 200 40 "vm") /\
  UI._memoryScrollDown 2
    (UI._memoryScrollUp 2
       (UI.withViewport 880 44 11 4096 (UI.new [] 200 40 "vm"))) =
  UI.withViewport 880 44 11 4096 (UI.new [] 200 40 "vm").
Proof.
  split.
  - apply (scroll_round_trip
             (UI.withViewport 0 44 11 4096 (UI.new [] 200 40 "vm")) 11);
      vm_compute; congruence.
  - apply (scroll_round_trip
             (UI.withViewport 880 44 11 4096 (UI.new [] 200 40 "vm")) 2);
      vm_compute; congruence.
Defined.

(** X9. While the bytes per line stay what they are, scrolling keeps the
    offset on a row boundary: from an offset that is a multiple of the
    bytes per line, every scroll up, scroll down and reset gives
    another one. *)
Theorem scroll_keeps_row_alignment :
  forall (u : UI.IMPL) (n : Z),
    0 <= UI._memoryOffset u ->
    0 <= UI._memoryBytesPerLine u * n ->
    UI._memoryOffset u + UI._memoryBytesPerLine u * n < SizeT.modulus ->
    (UI._memoryBytesPerLine u | UI._memoryOffset u) ->
    (UI._memoryBytesPerLine u | UI._memoryOffset (UI._memoryScrollDown n u)) /\
    (UI._memoryBytesPerLine u | UI._memoryOffset (UI._memoryScrollUp n u)) /\
    (UI._memoryBytesPerLine u | UI._memoryOffset (UI.set_memoryOffset 0 u)) /\
    UI._memoryBytesPerLine (UI._memoryScrollDown n u)
      = UI._memoryBytesPerLine u /\
    UI._memoryBytesPerLine (UI._memoryScrollUp n u)
      = UI._memoryBytesPerLine u.
Proof.
  intros u n Ho Hk Hs Hd.
  assert (Hm : (UI._memoryBytesPerLine u | UI._memoryBytesPerLine u * n))
    by (apply Z.divide_factor_l).
  split; [|split; [|split; [|split]]].
  - rewrite scrollDown_exact by lia.
    destruct (_ <? UI._totalMemory u);
      [apply Z.divide_add_r; assumption | exact Hd].
  - rewrite scrollUp_exact by lia.
    destruct (Z.max_spec 0 (UI._memoryOffset u
                            - UI._memoryBytesPerLine u * n))
      as [(_ & E) | (_ & E)]; rewrite E.
    + apply Z.divide_sub_r; assumption.
    + apply Z.divide_0_r.
  - simpl. apply Z.divide_0_r.
  - rewrite scrollDown_fields. reflexivity.
  - rewrite scrollUp_fields. reflexivity.
Qed.

Lemma scroll_keeps_row_alignment_witness :
  (44 | UI._memoryOffset
          (UI._memoryScrollDown 11
             (UI.withViewport 88 44 11 4096 (UI.new [] 200 40 "vm")))).
Proof.
  apply (scroll_keeps_row_alignment
           (UI.withViewport 88 44 11 4096 (UI.new [] 200 40 "vm")) 11);
    try (vm_compute; congruence).
  exists 2. reflexivity.
Defined.

(** ** The geometry of the memory panel *)

Lemma drawn_geometry (u : UI.IMPL) (d : VM.CoreDump) :
  30 <= Screen.width (UI._screen u) < SizeT.modulus ->
  35 <= Screen.height (UI._screen u) < SizeT.modulus ->
  Monitor.dump (UI._monitor u) = Some d ->
  VM.memorySize d > 0 ->
  UI._memoryBytesPerLine (fst (UI.onUpdate u)) =
    (Screen.width (UI._screen u) - 4) / 4 - 5 /\
  UI._memoryLines (fst (UI.onUpdate u)) = Screen.height (UI._screen u) - 29 /\
  6 <= (Screen.width (UI._screen u) - 4) / 4 /\
  4 * ((Screen.width (UI._screen u) - 4) / 4)
    <= Screen.width (UI._screen u) - 4.
Proof.
  intros W H D S. rewrite onUpdate_state. unfold UI._drawMemory.
  assert (W' : (Screen.width (UI._screen u) <? 30) = false)
    by (apply Z.ltb_ge; lia).
  assert (H' : (Screen.height (UI._screen u) <? 35) = false)
    by (apply Z.ltb_ge; lia).
  assert (S' : (VM.memorySize d >? 0) = true) by (apply Z.gtb_lt; lia).
  rewrite W', H', D. simpl. rewrite S'. simpl.
  unfold SizeT.sub.
  rewrite (wrap_small (Screen.width (UI._screen u) - 4)) by lia.
  assert (Q6 : 6 <= (Screen.width (UI._screen u) - 4) / 4)
    by (apply Z.div_le_lower_bound; lia).
  assert (Q4 : 4 * ((Screen.width (UI._screen u) - 4) / 4)
               <= Screen.width (UI._screen u) - 4)
    by (apply Z.mul_div_le; lia).
  rewrite !wrap_small by lia. repeat split; assumption.
Qed.

(** X10. When a tick draws a dump on a terminal of [w] by [h], both in
    [size_t] and at least 30 by 35, the bytes per line it stores are at
    least 1, so the row test [i % bytesPerLine] never divides by zero,
    and the line count is at least 6. A row ends inside the window: the
    last character of the character view, in column
    [bytesPerLine*3 + 4 + 18 + bytesPerLine - 1], is left of the right
    border in column [w - 1]; and the last of [lines] rows, on line
    [2 + lines], is above the bottom border on line [h - 26]. *)
Theorem memory_rows_fit_the_window :
  forall (u : UI.IMPL) (d : VM.CoreDump),
    30 <= Screen.width (UI._screen u) < SizeT.modulus ->
    35 <= Screen.height (UI._screen u) < SizeT.modulus ->
    Monitor.dump (UI._monitor u) = Some d ->
    VM.memorySize d > 0 ->
    1 <= UI._memoryBytesPerLine (fst (UI.onUpdate u)) /\
    6 <= UI._memoryLines (fst (UI.onUpdate u)) /\
    SizeT.mul (UI._memoryBytesPerLine (fst (UI.onUpdate u))) 3 + 4 + 18
      + UI._memoryBytesPerLine (fst (UI.onUpdate u)) - 1
      < Screen.width (UI._screen u) - 1 /\
    2 + UI._memoryLines (fst (UI.onUpdate u))
      < Screen.height (UI._screen u) - 25 - 1.
Proof.
  intros u d W H D S.
  destruct (drawn_geometry u d W H D S) as (P & L & Q6 & Q4).
  rewrite P, L. unfold SizeT.mul. rewrite wrap_small by lia. lia.
Qed.

Lemma memory_rows_fit_the_window_witness :
  1 <= UI._memoryBytesPerLine
         (fst (UI.onUpdate
                 (UI.exec1 (UI.exec1 (UI.new [] 30 35 "vm") UI.InRun)
                    (UI.InPoll
                       (Monitor.FetchedDump (Some (UI.zeroDump 64))))))).
Proof.
  apply (memory_rows_fit_the_window
           (UI.exec1 (UI.exec1 (UI.new [] 30 35 "vm") UI.InRun)
              (UI.InPoll (Monitor.FetchedDump (Some (UI.zeroDump 64)))))
           (UI.zeroDump 64));
    try (vm_compute; split; congruence); reflexivity.
Defined.

(** ** The register and stack rows *)

Lemma spaces_shift (n : nat) (reg : string) :
  String.append (UI.spaces n) (String " " reg) =
  String " " (String.append (UI.spaces n) reg).
Proof.
  induction n as [|n IH]; simpl.
  - reflexivity.
  - rewrite IH. reflexivity.
Qed.

Lemma padLoop_spaces (fuel : nat) :
  forall (i : nat) (reg : string),
    UI.padLoop fuel i reg =
    String.append (UI.spaces (Nat.min fuel (6 - i))) reg.
Proof.
  induction fuel as [|fuel IH]; intros i reg.
  - reflexivity.
  - cbn [UI.padLoop]. destruct (Nat.ltb_spec i 6) as [Lt | Ge].
    + rewrite IH, spaces_shift.
      replace (6 - i)%nat with (S (6 - S i)) by lia.
      rewrite <- Nat.succ_min_distr. reflexivity.
    + replace (6 - i)%nat with 0%nat by lia.
      rewrite Nat.min_0_r. reflexivity.
Qed.

Lemma length_spaces_append (n : nat) (reg : string) :
  String.length (String.append (UI.spaces n) reg)
  = (n + String.length reg)%nat.
Proof.
  induction n as [|n IH]; simpl; [reflexivity | rewrite IH; reflexivity].
Qed.

(** X11. The padding loop of the registers panel puts
    [6 - length] spaces before a name shorter than six characters, which
    makes it exactly six long, and leaves a name of six characters or more
    as it is; more rounds than the six it is given would change
    nothing. *)
Theorem register_names_are_padded_to_six :
  forall reg : string,
    UI.padRegister reg =
      String.append (UI.spaces (6 - String.length reg)) reg /\
    String.length (UI.padRegister reg) = Nat.max 6 (String.length reg) /\
    ((6 <= String.length reg)%nat -> UI.padRegister reg = reg) /\
    (forall fuel : nat,
       (6 <= fuel)%nat ->
       UI.padLoop fuel (String.length reg) reg = UI.padRegister reg).
Proof.
  intros reg. unfold UI.padRegister.
  assert (E : forall fuel, (6 <= fuel)%nat ->
                UI.padLoop fuel (String.length reg) reg =
                String.append (UI.spaces (6 - String.length reg)) reg).
  { intros fuel F. rewrite padLoop_spaces.
    replace (Nat.min fuel (6 - String.length reg))
      with (6 - String.length reg)%nat by lia.
    reflexivity. }
  split; [apply E; lia|split; [|split]].
  - rewrite E, length_spaces_append by lia. lia.
  - intros L. rewrite E by lia.
    replace (6 - String.length reg)%nat with 0%nat by lia. reflexivity.
  - intros fuel F. rewrite !E by lia. reflexivity.
Qed.

Lemma register_names_are_padded_to_six_witness :
  UI.padRegister "EAX" = "   EAX"%string /\
  UI.padRegister "GDTR_BASE" = "GDTR_BASE"%string.
Proof.
  split.
  - destruct (register_names_are_padded_to_six "EAX") as (E & _).
    rewrite E. reflexivity.
  - apply (register_names_are_padded_to_six "GDTR_BASE"). simpl. lia.
Defined.

Lemma registerRows_nth (regs : list (string * Z)) :
  forall (y : Z) (k : nat) (name : string) (value : Z),
    nth_error regs k = Some (name, value) ->
    nth_error (UI.registerRows y regs) k =
    Some (UI.PrintAt (UI.Win UI.Registers) (y + Z.of_nat k) 2
            (UI.RegisterText name (6 - String.length name) value)).
Proof.
  induction regs as [|[n v] regs IH]; intros y k name value E.
  - destruct k; discriminate.
  - destruct k as [|k]; simpl in *.
    + injection E as -> ->. rewrite Z.add_0_r. reflexivity.
    + rewrite (IH (y + 1) k name value E).
      replace (y + 1 + Z.of_nat k) with (y + Z.pos (Pos.of_succ_nat k))
        by lia.
      reflexivity.
Qed.

Lemma registerRows_length (regs : list (string * Z)) :
  forall y : Z, List.length (UI.registerRows y regs) = List.length regs.
Proof.
  induction regs as [|[n v] regs IH]; intros y; simpl.
  - reflexivity.
  - rewrite IH. reflexivity.
Qed.

(** X12. The registers panel prints one row for every register of the
    snapshot, none left out however many there are, in the order of the
    snapshot: register [k] on line [3 + k], with the padding of its
    name. *)
Theorem register_rows_follow_the_snapshot :
  forall (regs : list (string * Z)),
    List.length (UI.registerRows 3 regs) = List.length regs /\
    (forall (k : nat) (name : string) (value : Z),
       nth_error regs k = Some (name, value) ->
       nth_error (UI.registerRows 3 regs) k =
       Some (UI.PrintAt (UI.Win UI.Registers) (3 + Z.of_nat k) 2
               (UI.RegisterText name (6 - String.length name) value))).
Proof.
  intros regs. split; [apply registerRows_length|].
  intros k name value. apply registerRows_nth.
Qed.

Lemma stackRows_length (stack : list VM.StackEntry) :
  forall (n i : nat) (y : Z),
    (i + n = 16)%nat ->
    List.length (UI.stackRows (Z.of_nat i) y stack)
    = Nat.min n (List.length stack).
Proof.
  induction stack as [|e stack IH]; intros n i y Hi; cbn [UI.stackRows].
  - rewrite Nat.min_0_r. reflexivity.
  - destruct (Z.eqb_spec (Z.of_nat i) 16) as [E | N].
    + assert (n = 0)%nat by lia. subst n. reflexivity.
    + destruct n as [|n]; [lia|].
      replace (Z.of_nat i + 1) with (Z.of_nat (S i)) by lia.
      cbn [List.length]. rewrite (IH n (S i)) by lia.
      rewrite <- Nat.succ_min_distr. reflexivity.
Qed.

Lemma stackRows_nth (stack : list VM.StackEntry) :
  forall (n i : nat) (y : Z) (k : nat) (e : VM.StackEntry),
    (i + n = 16)%nat ->
    (k < n)%nat ->
    nth_error stack k = Some e ->
    nth_error (UI.stackRows (Z.of_nat i) y stack) k =
    Some (UI.PrintAt (UI.Win UI.Stack) (y + Z.of_nat k) 2 (UI.StackText e)).
Proof.
  induction stack as [|e0 stack IH]; intros n i y k e Hi Hk E;
    cbn [UI.stackRows].
  - destruct k; discriminate.
  - destruct (Z.eqb_spec (Z.of_nat i) 16) as [E16 | N]; [lia|].
    destruct k as [|k]; simpl in E.
    + injection E as ->. rewrite Z.add_0_r. reflexivity.
    + destruct n as [|n]; [lia|].
      replace (Z.of_nat i + 1) with (Z.of_nat (S i)) by lia.
      cbn [nth_error]. rewrite (IH n (S i) (y + 1) k e) by (lia || exact E).
      f_equal. f_equal. lia.
Qed.

Lemma stackRows_truncates (stack : list VM.StackEntry) :
  forall (n i : nat) (y : Z),
    (i + n = 16)%nat ->
    UI.stackRows (Z.of_nat i) y stack =
    UI.stackRows (Z.of_nat i) y (firstn n stack).
Proof.
  induction stack as [|e stack IH]; intros n i y Hi.
  - rewrite firstn_nil. reflexivity.
  - destruct n as [|n].
    + cbn [firstn UI.stackRows].
      destruct (Z.eqb_spec (Z.of_nat i) 16); [reflexivity | lia].
    + cbn [firstn UI.stackRows].
      destruct (Z.of_nat i =? 16); [reflexivity|].
      f_equal. replace (Z.of_nat i + 1) with (Z.of_nat (S i)) by lia.
      apply IH. lia.
Qed.

(** X13. The stack panel prints the first sixteen frames of the snapshot and
    silently drops the rest: frame [k < 16] is on line [5 + k], there are
    [min 16 n] rows for [n] frames, frames from the seventeenth on change
    nothing, and every row is on one of the lines 5 to 20, inside the 22
    lines of the window. *)
Theorem stack_rows_stop_at_sixteen :
  forall stack : list VM.StackEntry,
    List.length (UI.stackRows 0 5 stack)
      = Nat.min 16 (List.length stack) /\
    UI.stackRows 0 5 stack = UI.stackRows 0 5 (firstn 16 stack) /\
    (forall (k : nat) (e : VM.StackEntry),
       (k < 16)%nat ->
       nth_error stack k = Some e ->
       nth_error (UI.stackRows 0 5 stack) k =
       Some (UI.PrintAt (UI.Win UI.Stack) (5 + Z.of_nat k) 2
               (UI.StackText e))) /\
    Forall (fun y => 5 <= y <= 20)
           (UI.collect UI.rowLine (UI.stackRows 0 5 stack)).
Proof.
  intros stack.
  split; [apply (stackRows_length stack 16 0 5); reflexivity|].
  split; [apply (stackRows_truncates stack 16 0 5); reflexivity|].
  split.
  - intros k e Hk E.
    apply (stackRows_nth stack 16 0 5 k e); [reflexivity | exact Hk | exact E].
  - assert (G : forall (l : list VM.StackEntry) (n i : nat),
               (i + n = 16)%nat ->
               Forall (fun y => 5 <= y <= 20)
                 (UI.collect UI.rowLine
                    (UI.stackRows (Z.of_nat i) (5 + Z.of_nat i) l))).
    { induction l as [|e l IH]; intros n i Hi; cbn [UI.stackRows].
      - constructor.
      - destruct (Z.eqb_spec (Z.of_nat i) 16) as [E | N]; [constructor|].
        cbn [UI.collect UI.rowLine]. constructor; [lia|].
        destruct n as [|n]; [lia|].
        replace (Z.of_nat i + 1) with (Z.of_nat (S i)) by lia.
        replace (5 + Z.of_nat i + 1) with (5 + Z.of_nat (S i)) by lia.
        apply (IH n (S i)). lia. }
    apply (G stack 16%nat 0%nat). reflexivity.
Qed.

(** ** The two views of the memory panel *)


Lemma hexRows_bytes (P : Z) (mem : list Z) :
  forall i y offset : Z,
    UI.collect UI.hexByte (UI.hexRows P i y offset mem) = mem.
Proof.
  induction mem as [|b mem IH]; intros i y offset; simpl.
  - reflexivity.
  - destruct (i mod P =? 0); simpl; rewrite IH; reflexivity.
Qed.

Lemma asciiRows_chars (P : Z) (mem : list Z) :
  forall i y : Z,
    UI.collect UI.asciiChar (UI.asciiRows P i y mem) = map UI.shown mem.
Proof.
  induction mem as [|b mem IH]; intros i y; simpl.
  - reflexivity.
  - destruct (i mod P =? 0); simpl; rewrite IH; reflexivity.
Qed.

Lemma rows_line_up (P : Z) (mem : list Z) :
  forall i y offset : Z,
    map fst (UI.collect UI.rowHeader (UI.hexRows P i y offset mem)) =
    UI.collect UI.rowStart (UI.asciiRows P i y mem).
Proof.
  induction mem as [|b mem IH]; intros i y offset; simpl.
  - reflexivity.
  - destruct (i mod P =? 0); simpl; rewrite IH; reflexivity.
Qed.

Lemma shown_printable (b : Z) :
  33 <= UI.shown b <= 126 /\
  (33 <= b <= 126 -> UI.shown b = b) /\
  (b < 33 \/ 126 < b -> UI.shown b = UI.key_of ".").
Proof.
  unfold UI.shown.
  destruct (Z.leb_spec 33 b), (Z.leb_spec b 126); simpl;
    repeat split; intros; try lia; try reflexivity;
    vm_compute; congruence.
Qed.

(** X14. Whatever the bytes per line and the range read, the memory panel
    prints every byte of the range once in the hex view and once in the
    character view, in order; the two views start a new row at the same
    bytes and on the same lines; and the character view shows a byte as
    itself when it is a printing, non-blank ASCII character (33 to 126)
    and as a dot otherwise, so it never emits a control character. *)
Theorem memory_views_show_every_byte :
  forall (P i y offset : Z) (mem : list Z),
    UI.collect UI.hexByte (UI.hexRows P i y offset mem) = mem /\
    UI.collect UI.asciiChar (UI.asciiRows P i y mem) = map UI.shown mem /\
    map fst (UI.collect UI.rowHeader (UI.hexRows P i y offset mem)) =
      UI.collect UI.rowStart (UI.asciiRows P i y mem) /\
    Forall (fun c => 33 <= c <= 126)
           (UI.collect UI.asciiChar (UI.asciiRows P i y mem)) /\
    (forall b : Z,
       (33 <= b <= 126 -> UI.shown b = b) /\
       (b < 33 \/ 126 < b -> UI.shown b = UI.key_of ".")).
Proof.
  intros P i y offset mem.
  split; [apply hexRows_bytes|].
  split; [apply asciiRows_chars|].
  split; [apply rows_line_up|].
  split.
  - rewrite asciiRows_chars. apply Forall_forall.
    intros c I. apply in_map_iff in I. destruct I as (b & <- & _).
    apply shown_printable.
  - intros b. apply shown_printable.
Qed.

(** ** The row headers of the hex view *)










(** ** A tick that draws a dump *)



